(** * Lyra domain processor: normalisation, validation and merge

    A shallow embedding of [script/core/processor.py] (class
    [DomainProcessor]) together with the properties of its normaliser and
    merger.

    Python [str] values are modelled by [string]: sequences of code points
    below 256 (ASCII and Latin-1); lines with other code points are outside
    the model.  The [str] methods used by the processor are modelled in
    module [Py] with the behaviour CPython has on that range.  A Python
    [set] of strings is a [gset string]; [sorted] is a merge sort under the
    code point order of strings, and [list(a_set)] is [elements]: the
    result of [sorted] does not depend on the order of enumeration
    ([sorted_perm_invariant]). *)

From Stdlib Require Import Ascii String NArith Bool Arith Lia.
From stdpp Require Import base option list sets gmap strings sorting.

(** ** Python string primitives *)

Module Py.

#[local] Open Scope char_scope.

Definition code (c : ascii) : N := N_of_ascii c.

(** [lo <= c <= hi] on code points. *)
Definition between (lo hi c : ascii) : bool :=
  (code lo <=? code c)%N && (code c <=? code hi)%N.

Definition dquote : ascii := "034".
Definition tab : ascii := "009".
Definition lf : ascii := "010".
Definition cr : ascii := "013".

(** [str.isspace] for one code point below 256: TAB..CR, FS..US, space,
    NEL (0x85) and NBSP (0xA0). *)
Definition isspace (c : ascii) : bool :=
  between "009" "013" c || between "028" "032" c
  || (code c =? 133)%N || (code c =? 160)%N.

Definition isupper_ascii (c : ascii) : bool := between "A" "Z" c.
Definition islower_ascii (c : ascii) : bool := between "a" "z" c.
Definition isalpha_ascii (c : ascii) : bool :=
  isupper_ascii c || islower_ascii c.
Definition isdigit_ascii (c : ascii) : bool := between "0" "9" c.
Definition isascii_char (c : ascii) : bool := (code c <? 128)%N.

(** Cased upper-case code points below 256: A..Z and the Latin-1 capitals
    0xC0..0xDE except the multiplication sign 0xD7. *)
Definition isupper (c : ascii) : bool :=
  isupper_ascii c || (between "192" "222" c && negb (code c =? 215)%N).

(** [str.lower] on one code point: every upper-case code point below 256
    maps to the code point 32 above it. *)
Definition lower_char (c : ascii) : ascii :=
  if isupper c then ascii_of_N (code c + 32) else c.

Fixpoint lower (s : string) : string :=
  match s with
  | EmptyString => EmptyString
  | String c r => String (lower_char c) (lower r)
  end.

(** Truth value of a string: non-empty. *)
Definition truthy (s : string) : bool :=
  match s with EmptyString => false | String _ _ => true end.

Fixpoint all_chars (p : ascii -> bool) (s : string) : bool :=
  match s with
  | EmptyString => true
  | String c r => p c && all_chars p r
  end.

(** [c in chars] for a single character [c]. *)
Fixpoint char_in (chars : string) (c : ascii) : bool :=
  match chars with
  | EmptyString => false
  | String d r => Ascii.eqb c d || char_in r c
  end.

Fixpoint lstrip_with (p : ascii -> bool) (s : string) : string :=
  match s with
  | EmptyString => EmptyString
  | String c r => if p c then lstrip_with p r else s
  end.

Fixpoint rstrip_with (p : ascii -> bool) (s : string) : string :=
  match s with
  | EmptyString => EmptyString
  | String c r =>
      match rstrip_with p r with
      | EmptyString => if p c then EmptyString else String c EmptyString
      | String _ _ as r' => String c r'
      end
  end.

Definition strip_with (p : ascii -> bool) (s : string) : string :=
  rstrip_with p (lstrip_with p s).

(** [s.strip()], [s.strip(chars)], [s.lstrip(chars)], [s.rstrip(chars)]. *)
Definition strip (s : string) : string := strip_with isspace s.
Definition strip_chars (chars s : string) : string :=
  strip_with (char_in chars) s.
Definition lstrip_chars (chars s : string) : string :=
  lstrip_with (char_in chars) s.
Definition rstrip_chars (chars s : string) : string :=
  rstrip_with (char_in chars) s.

Fixpoint rev_onto (s acc : string) : string :=
  match s with
  | EmptyString => acc
  | String c r => rev_onto r (String c acc)
  end.
Definition rev (s : string) : string := rev_onto s EmptyString.

(** [s.startswith(p)], [s.startswith((p1, ..., pn))], [s.endswith(p)]. *)
Fixpoint startswith (s p : string) {struct p} : bool :=
  match p, s with
  | EmptyString, _ => true
  | String _ _, EmptyString => false
  | String a p', String b s' => Ascii.eqb b a && startswith s' p'
  end.
Definition startswith_any (s : string) (ps : list string) : bool :=
  existsb (startswith s) ps.
Definition endswith (s p : string) : bool := startswith (rev s) (rev p).

(** [sub in s]. *)
Fixpoint contains (sub s : string) : bool :=
  startswith s sub ||
  match s with
  | EmptyString => false
  | String _ r => contains sub r
  end.

(** [s.count(c)] for a one-character [c]. *)
Fixpoint count (c : ascii) (s : string) : nat :=
  match s with
  | EmptyString => 0
  | String d r => (if Ascii.eqb d c then 1 else 0) + count c r
  end.

(** [s.split(sep)] for a one-character separator: never the empty list. *)
Fixpoint split (sep : ascii) (s : string) : list string :=
  match s with
  | EmptyString => [EmptyString]
  | String c r =>
      if Ascii.eqb c sep then EmptyString :: split sep r
      else match split sep r with
           | [] => [String c EmptyString]
           | w :: ws => String c w :: ws
           end
  end.

(** [s.split()]: the maximal runs of non-whitespace characters.  [cur] is
    the run being read, reversed. *)
Definition flush (cur : string) : list string :=
  match cur with EmptyString => [] | String _ _ => [rev cur] end.

Fixpoint split_ws_go (cur s : string) : list string :=
  match s with
  | EmptyString => flush cur
  | String c r =>
      if isspace c then flush cur ++ split_ws_go EmptyString r
      else split_ws_go (String c cur) r
  end.
Definition split_ws (s : string) : list string := split_ws_go EmptyString s.

(** [s[n:]] and [s[n:-1]] for a literal [n >= 0]. *)
Fixpoint slice_from (n : nat) (s : string) : string :=
  match n, s with
  | O, _ => s
  | S n', EmptyString => EmptyString
  | S n', String _ r => slice_from n' r
  end.
Definition slice_to_last (n : nat) (s : string) : string :=
  String.substring n (String.length s - 1 - n) s.

(** [s[:n]]. *)
Definition slice_upto (n : nat) (s : string) : string :=
  String.substring 0 n s.

(** [s.find(c)] for a one-character [c]; [None] stands for -1. *)
Fixpoint find (c : ascii) (s : string) : option nat :=
  match s with
  | EmptyString => None
  | String d r => if Ascii.eqb d c then Some 0 else S <$> find c r
  end.

(** [s.replace(c, "")] for a one-character [c]. *)
Fixpoint remove (c : ascii) (s : string) : string :=
  match s with
  | EmptyString => EmptyString
  | String d r => if Ascii.eqb d c then remove c r else String d (remove c r)
  end.

(** The prefix of [s] before the first character satisfying [p]. *)
Fixpoint take_until (p : ascii -> bool) (s : string) : string :=
  match s with
  | EmptyString => EmptyString
  | String c r => if p c then EmptyString else String c (take_until p r)
  end.

End Py.

(** ** [urllib.parse.urlparse]: the [netloc] component

    The processor only reads [urlparse(url).netloc]; a [ValueError] raised
    by the parser is caught by a bare [except].  [urlparse_netloc]
    follows [urlsplit] of CPython's [urllib/parse.py]; [None] stands for
    the raised [ValueError].  Two checks of [urlsplit] depend on tables
    that are no part of this repository (IP address syntax inside brackets,
    Unicode NFKC normalisation): their verdict is left open as the two
    fields of [UrlChecks], [true] meaning that no exception is raised. *)

Class UrlChecks := {
  check_bracketed_netloc : string -> bool;
  checknetloc_nfkc : string -> bool
}.

Module Url.

#[local] Open Scope char_scope.

(** [_WHATWG_C0_CONTROL_OR_SPACE]: code points 0x00..0x20. *)
Definition c0_control_or_space (c : ascii) : bool := (Py.code c <=? 32)%N.

(** [scheme_chars]: ASCII letters, digits and [+-.]. *)
Definition scheme_char (c : ascii) : bool :=
  Py.isalpha_ascii c || Py.isdigit_ascii c || Py.char_in "+-."%string c.

(** The delimiters looked for by [_splitnetloc]. *)
Definition netloc_delim (c : ascii) : bool := Py.char_in "/?#"%string c.

(** [i = url.find(':')]; when [i > 0], [url[0]] is an ASCII letter and
    [url[:i]] consists of scheme characters, the URL continues at
    [url[i+1:]]. *)
Definition drop_scheme (url : string) : string :=
  match Py.find ":" url, url with
  | Some (S i), String c0 _ =>
      if Py.isalpha_ascii c0
         && Py.all_chars scheme_char (Py.slice_upto (S i) url)
      then Py.slice_from (S (S i)) url
      else url
  | _, _ => url
  end.

(** [_checknetloc]: returns at once on an empty or all-ASCII netloc. *)
Definition checknetloc `{UrlChecks} (netloc : string) : bool :=
  negb (Py.truthy netloc) || Py.all_chars Py.isascii_char netloc
  || checknetloc_nfkc netloc.

Definition urlparse_netloc `{UrlChecks} (url : string) : option string :=
  let url := Py.lstrip_with c0_control_or_space url in
  let url := Py.remove Py.lf (Py.remove Py.cr (Py.remove Py.tab url)) in
  let url := drop_scheme url in
  if String.eqb (Py.slice_upto 2 url) "//" then
    let netloc := Py.take_until netloc_delim (Py.slice_from 2 url) in
    let has_open := Py.contains "[" netloc in
    let has_close := Py.contains "]" netloc in
    if (has_open && negb has_close) || (has_close && negb has_open) then None
    else if has_open && has_close && negb (check_bracketed_netloc netloc)
    then None
    else if checknetloc netloc then Some netloc else None
  else Some ""%string.

End Url.

(** ** Regular expressions: the fragment of [re] used by [domain_regex]

    A pattern is a sequence of items, matched left to right with
    backtracking.  The matcher carries the text already consumed, reversed,
    in [before] and the remaining text in [rest]. *)

Module Re.

#[local] Open Scope char_scope.

Inductive item : Type :=
| Bol                                   (* ^ *)
| Eol                                   (* $ *)
| NotAhead (c : ascii)                  (* (?!c) *)
| NotBehind (c : ascii)                 (* (?<!c) *)
| Lit (c : ascii)                       (* one literal character *)
| Rep (cls : ascii -> bool) (lo : nat) (hi : option nat).
                                        (* [cls]{lo,hi}, greedy *)

Definition first_is (c : ascii) (s : string) : bool :=
  match s with
  | EmptyString => false
  | String d _ => Ascii.eqb d c
  end.

(** [$] without MULTILINE: at the end of the string, or just before a
    newline that ends the string. *)
Definition at_eol (rest : string) : bool :=
  match rest with
  | EmptyString => true
  | String c EmptyString => Ascii.eqb c Py.lf
  | _ => false
  end.

Definition may_take (hi : option nat) : bool :=
  match hi with Some O => false | _ => true end.

(** Greedy bounded repetition of a character class followed by the
    continuation [k]: first try to take one more character, then try to
    stop here (allowed once [lo] characters have been taken). *)
Fixpoint rep (cls : ascii -> bool) (k : string -> string -> bool)
    (lo : nat) (hi : option nat) (before rest : string) : bool :=
  match rest with
  | String c r =>
      cls c && may_take hi
      && rep cls k (Nat.pred lo) (Nat.pred <$> hi) (String c before) r
  | EmptyString => false
  end
  || (Nat.eqb lo 0 && k before rest).

Fixpoint matches (p : list item) (before rest : string) : bool :=
  match p with
  | [] => true
  | Bol :: p' => negb (Py.truthy before) && matches p' before rest
  | Eol :: p' => at_eol rest && matches p' before rest
  | NotAhead c :: p' => negb (first_is c rest) && matches p' before rest
  | NotBehind c :: p' => negb (first_is c before) && matches p' before rest
  | Lit c :: p' =>
      match rest with
      | String d r => Ascii.eqb d c && matches p' (String d before) r
      | EmptyString => false
      end
  | Rep cls lo hi :: p' => rep cls (matches p') lo hi before rest
  end.

(** [bool(pattern.search(s))]: a match starting at some position. *)
Fixpoint search_from (p : list item) (before rest : string) : bool :=
  matches p before rest ||
  match rest with
  | EmptyString => false
  | String c r => search_from p (String c before) r
  end.
Definition search (p : list item) (s : string) : bool :=
  search_from p EmptyString s.

End Re.

(** ** The domain processor *)

Section DomainProcessor.

Context `{UrlChecks}.

(** The class [[A-Za-z0-9-]]; the class [[A-Za-z]] is [Py.isalpha_ascii]. *)
Definition label_char (c : ascii) : bool :=
  Py.isalpha_ascii c || Py.isdigit_ascii c || Ascii.eqb c "-".

(** [r"^(?!-)[A-Za-z0-9-]{1,63}(?<!-)\.[A-Za-z]{2,}$"] *)
Definition domain_regex : list Re.item :=
  [ Re.Bol; Re.NotAhead "-"; Re.Rep label_char 1 (Some 63);
    Re.NotBehind "-"; Re.Lit "."; Re.Rep Py.isalpha_ascii 2 None; Re.Eol ].

Definition is_valid_domain (domain : string) : bool :=
  Re.search domain_regex domain.

(** *** [normalize_domain], step by step

    The argument is a [str]; the guard [not isinstance(domain, str)] of
    the source never fires on it. *)

(** Lines 35-49: CSV rows of a PhishTank feed.  [None] is the early
    [return ""] of the [except] branch. *)
Definition csv_step (domain : string) (source_name : option string)
    : option string :=
  let is_phishtank :=
    match source_name with
    | Some name => Py.truthy name && Py.contains "phishtank" name
    | None => false
    end in
  if is_phishtank && Py.contains "," domain then
    let parts := Py.split "," domain in
    if 1 <? length parts then
      let url := Py.strip_chars (String Py.dquote "") (default "" (parts !! 1)) in
      if Py.startswith url "http" then Url.urlparse_netloc url
      else Some url
    else Some domain
  else Some domain.

(** Lines 51-55: AdGuard filter format. *)
Definition adguard_step (domain : string) : string :=
  if Py.startswith domain "||" && Py.endswith domain "^"
  then Py.slice_to_last 2 domain
  else if Py.startswith domain "||" then Py.slice_from 2 domain
  else domain.

(** The tuple of prefixes tested on line 58. *)
Definition hosts_prefixes : list string :=
  ["0.0.0.0"; "127.0.0.1"; "::1"; "localhost"].

(** Lines 57-60: hosts file format. *)
Definition hosts_step (domain : string) : string :=
  if Py.startswith_any domain hosts_prefixes
  then
    let parts := Py.split_ws domain in
    if 1 <? length parts then default "" (parts !! 1) else ""
  else domain.

(** Lines 62-64: adblock markers. *)
Definition markers_step (domain : string) : string :=
  let domain := Py.rstrip_chars "^" (Py.lstrip_chars "|" domain) in
  Py.lstrip_chars "." (Py.lstrip_chars "*." domain).

(** Lines 66-73: protocol prefixes; a parse failure leaves the string as
    it is. *)
Definition protocol_step (domain : string) : string :=
  if Py.startswith_any domain ["http://"; "https://"; "ftp://"] then
    let url :=
      if Py.startswith_any domain ["http://"; "https://"] then domain
      else "http://" +:+ domain in
    match Url.urlparse_netloc url with
    | Some netloc => netloc
    | None => domain
    end
  else domain.

(** Lines 75-77: port numbers. *)
Definition port_step (domain : string) : string :=
  if Py.contains ":" domain && negb (1 <? Py.count ":" domain)
  then default "" (Py.split ":" domain !! 0)
  else domain.

(** Lines 79-83: path and query parameters. *)
Definition path_step (domain : string) : string :=
  let domain :=
    if Py.contains "/" domain then default "" (Py.split "/" domain !! 0)
    else domain in
  if Py.contains "?" domain then default "" (Py.split "?" domain !! 0)
  else domain.

(** The character set of line 86. *)
Definition unwanted_chars : string :=
  ".,;:!@#$%^&*()[]{}" +:+ String Py.dquote
    ("' " +:+ String Py.tab (String Py.lf (String Py.cr ""))).

Definition normalize_domain (domain : string) (source_name : option string)
    : string :=
  if negb (Py.truthy domain) then "" else
  let domain := Py.lower (Py.strip domain) in
  if negb (Py.truthy domain) || Py.startswith domain "#"
     || Py.startswith domain "!" || Py.startswith domain ";"
  then "" else
  match csv_step domain source_name with
  | None => ""
  | Some domain =>
      let domain := adguard_step domain in
      let domain := hosts_step domain in
      let domain := markers_step domain in
      let domain := protocol_step domain in
      let domain := port_step domain in
      let domain := path_step domain in
      Py.strip_chars unwanted_chars domain
  end.

(** [any(keyword in domain for keyword in keywords)] *)
Definition has_priority_keywords (domain : string) (keywords : list string)
    : bool :=
  existsb (fun keyword => Py.contains keyword domain) keywords.

(** Truth value of the optional keyword list: neither [None] nor empty. *)
Definition keywords_truthy (priority_keywords : option (list string))
    : bool :=
  match priority_keywords with
  | Some (_ :: _) => true
  | _ => false
  end.

(** One iteration of the loop of [process_domains] on the pair
    [(normalized_domains, priority_domains)]. *)
Definition process_step (priority_keywords : option (list string))
    (source_name : option string) (acc : gset string * gset string)
    (raw_domain : string) : gset string * gset string :=
  let '(normalized_domains, priority_domains) := acc in
  let domain := normalize_domain raw_domain source_name in
  if Py.truthy domain && is_valid_domain domain then
    let normalized_domains := normalized_domains ∪ {[ domain ]} in
    if keywords_truthy priority_keywords
       && has_priority_keywords domain (default [] priority_keywords)
    then (normalized_domains, priority_domains ∪ {[ domain ]})
    else (normalized_domains, priority_domains)
  else (normalized_domains, priority_domains).

Definition process_domains (raw_domains : list string)
    (priority_keywords : option (list string)) (source_name : option string)
    : gset string * gset string :=
  fold_left (process_step priority_keywords source_name) raw_domains (∅, ∅).

End DomainProcessor.

(** ** The merger *)

Record merge_stats : Type := MergeStats {
  existing_count : nat;
  new_count : nat;
  newly_added_count : nat;
  total_count : nat;
  priority_count : nat
}.

(** [sorted(l)] on a list of strings: ascending in the code point order. *)
Definition sorted (l : list string) : list string := merge_sort String.le l.

Definition merge_domains (existing_domains new_domains : gset string)
    (priority_domains : option (gset string)) : list string * merge_stats :=
  let all_domains := existing_domains ∪ new_domains in
  let newly_added := new_domains ∖ existing_domains in
  let final_domains_list := sorted (elements all_domains) in
  let stats :=
    {| existing_count := size existing_domains;
       new_count := size new_domains;
       newly_added_count := size newly_added;
       total_count := size all_domains;
       priority_count := 0 |} in
  (final_domains_list, stats).

(** ** The corpus file

    [load_existing_domains] of the processor reads the file that
    [BaseCategory._save_domains] writes; [BaseCategory.build_blocklist]
    chains loading, processing, merging and saving.  A text file is
    modelled by its content, the text as [f.write] received it: the
    configured encoding is taken to be the default [utf-8], the one
    [load_existing_domains] reads with, and line ends are written as they
    are (POSIX). *)

Inductive file_state : Type :=
| Missing                       (* [os.path.exists] is false *)
| Unreadable                    (* opening or decoding raises *)
| Text (content : string).

Module TextFile.

(** Reading in text mode with universal newlines: [\r\n] and a lone [\r]
    are both read as [\n]. *)
Fixpoint universal_newlines (s : string) : string :=
  match s with
  | EmptyString => EmptyString
  | String c r =>
      if Ascii.eqb c Py.cr then
        match r with
        | String d r' =>
            if Ascii.eqb d Py.lf then String Py.lf (universal_newlines r')
            else String Py.lf (universal_newlines r)
        | EmptyString => String Py.lf EmptyString
        end
      else String c (universal_newlines r)
  end.

(** The lines an iteration over the file yields: each one ends with its
    newline, except possibly the last.  [cur] is the line being read,
    reversed. *)
Fixpoint lines_go (cur s : string) : list string :=
  match s with
  | EmptyString => Py.flush cur
  | String c r =>
      if Ascii.eqb c Py.lf then Py.rev (String c cur) :: lines_go EmptyString r
      else lines_go (String c cur) r
  end.

Definition readlines (content : string) : list string :=
  lines_go EmptyString (universal_newlines content).

End TextFile.

(** [{line.strip() for line in f if line.strip()}], and the empty set when
    the file is missing or cannot be read. *)
Definition load_existing_domains (file : file_state) : gset string :=
  match file with
  | Missing => ∅
  | Unreadable => ∅
  | Text content =>
      list_to_set
        (List.filter Py.truthy (Py.strip <$> TextFile.readlines content))
  end.

(** The header written by [_save_domains]; [name] is the display name of
    the category. *)
Definition header_lines (name : string) : list string :=
  [ "/**"; "Lyra - Mapping the universe of threats"; "Category: " +:+ name;
    "Website: https://blog.intellibron.io/"; "Copyright 2025 ITSEC R&D";
    "**/"; "" ].

(** The text produced by a sequence of [f.write(line + "\n")]. *)
Fixpoint write_lines (lines : list string) : string :=
  match lines with
  | [] => ""
  | line :: lines' => (line +:+ String Py.lf "") +:+ write_lines lines'
  end.

(** [_save_domains]: the header, then one domain per line. *)
Definition save_domains (name : string) (domains_list : list string)
    : string :=
  write_lines (header_lines name) +:+ write_lines domains_list.

(** [build_blocklist], as far as the corpus file and the merge statistics
    go: the file read, the raw lines fetched, the file content written and
    the statistics of the merge.  The priority keywords are the list of the
    category configuration. *)
Definition build_blocklist `{UrlChecks} (name : string)
    (priority_keywords : list string) (file : file_state)
    (raw_domains : list string) : string * merge_stats :=
  let existing_domains := load_existing_domains file in
  let '(normalized_domains, priority_domains) :=
    process_domains raw_domains (Some priority_keywords) None in
  let '(final_domains_list, merge_stats) :=
    merge_domains existing_domains normalized_domains (Some priority_domains) in
  (save_domains name final_domains_list, merge_stats).

(** ** Notions used in the statements *)

(** A parser whose two open checks never raise, as in the releases of
    CPython that lack them. *)
Definition lenient_checks : UrlChecks :=
  {| check_bracketed_netloc := fun _ => true;
     checknetloc_nfkc := fun _ => true |}.

(** Code points that [str.lower] leaves alone. *)
Definition not_upper (c : ascii) : bool := negb (Py.isupper c).

(** Characters of a host name, [[A-Za-z0-9.-]], and of its first position,
    [[A-Za-z0-9]]. *)
Definition host_char (c : ascii) : bool := label_char c || Ascii.eqb c ".".
Definition alnum_char (c : ascii) : bool :=
  Py.isalpha_ascii c || Py.isdigit_ascii c.

Definition first_char (s : string) : option ascii :=
  match s with
  | EmptyString => None
  | String c _ => Some c
  end.

Fixpoint last_char (s : string) : option ascii :=
  match s with
  | EmptyString => None
  | String c EmptyString => Some c
  | String _ r => last_char r
  end.

(** A bare host name as the normaliser leaves it: host characters only,
    none of them upper-case, a letter or digit first and a letter last. *)
Record bare_host (s : string) : Prop := BareHost {
  bare_chars : Py.all_chars host_char s = true;
  bare_lower : Py.all_chars not_upper s = true;
  bare_first : ∃ c, first_char s = Some c ∧ alnum_char c = true;
  bare_last : ∃ c, last_char s = Some c ∧ Py.isalpha_ascii c = true
}.

(** What may follow the host in a URL line: an optional port, [:] and
    digits, and then nothing or a path, query or fragment. *)
Definition port_like (port : string) : bool :=
  match port with
  | EmptyString => true
  | String c digits => Ascii.eqb c ":" && Py.all_chars Py.isdigit_ascii digits
  end.

Definition path_like (rest : string) : bool :=
  match rest with
  | EmptyString => true
  | String d _ => Url.netloc_delim d
  end.

(** In a CSV row: a path that holds neither a comma nor a double quote,
    and what may follow the quoted URL field. *)
Definition csv_safe (path : string) : bool :=
  path_like path
  && Py.all_chars
       (λ c, negb (Ascii.eqb c ",") && negb (Ascii.eqb c Py.dquote)) path.

Definition tail_like (tail : string) : bool :=
  match tail with
  | EmptyString => true
  | String c _ => Ascii.eqb c ","
  end.

(** A string that fits on one line of a text file: no carriage return and
    no line feed. *)
Definition one_line (s : string) : bool :=
  Py.all_chars
    (λ c, negb (Ascii.eqb c Py.cr) && negb (Ascii.eqb c Py.lf)) s.

(** The entries a list of written lines is read back as. *)
Definition entries (lines : list string) : gset string :=
  list_to_set (List.filter Py.truthy (Py.strip <$> lines)).

(** Strict code point order on strings, as computed by [<] in Python. *)
Definition str_lt (a b : string) : Prop := String.ltb a b = true.

(** * Properties *)

(** ** Facts about the string primitives

    Every primitive used by the normaliser returns pieces of its argument:
    a property [q] of all characters of the argument holds of all
    characters of the result. *)

Section PyFacts.

Variable q : ascii → bool.

Implicit Types (s t : string) (c : ascii).

#[local] Abbreviation all_q s := (Py.all_chars q s = true).

Lemma all_chars_cons c s : all_q (String c s) ↔ q c = true ∧ all_q s.
Proof. cbn. apply andb_true_iff. Qed.

Lemma all_chars_lstrip p s : all_q s → all_q (Py.lstrip_with p s).
Proof.
  induction s as [|c s IH]; [done|]. intros Hs. cbn.
  destruct (p c); [|done]. apply IH. by apply all_chars_cons in Hs as [_ ?].
Qed.

Lemma all_chars_rstrip p s : all_q s → all_q (Py.rstrip_with p s).
Proof.
  induction s as [|c s IH]; [done|]. intros [Hc Hs]%all_chars_cons.
  cbn. destruct (Py.rstrip_with p s) eqn:Hr.
  - destruct (p c); [done|]. by apply all_chars_cons.
  - apply all_chars_cons. split; [done|]. by apply IH.
Qed.

Lemma all_chars_strip_with p s : all_q s → all_q (Py.strip_with p s).
Proof. intros Hs. by apply all_chars_rstrip, all_chars_lstrip. Qed.

Lemma all_chars_rev_onto s : ∀ acc, all_q s → all_q acc → all_q (Py.rev_onto s acc).
Proof.
  induction s as [|c s IH]; intros acc Hs Hacc; [done|].
  apply all_chars_cons in Hs as [Hc Hs]. cbn. apply IH; [done|].
  by apply all_chars_cons.
Qed.

Lemma all_chars_split sep s :
  all_q s → Forall (λ w, all_q w) (Py.split sep s).
Proof.
  induction s as [|c s IH]; intros Hs; cbn.
  - by constructor.
  - apply all_chars_cons in Hs as [Hc Hs]. specialize (IH Hs).
    destruct (Ascii.eqb c sep); [by constructor|].
    destruct (Py.split sep s) as [|w ws].
    + constructor; [|done]. by apply all_chars_cons.
    + apply Forall_cons in IH as [Hw Hws].
      constructor; [|done]. by apply all_chars_cons.
Qed.

Lemma all_chars_flush cur : all_q cur → Forall (λ w, all_q w) (Py.flush cur).
Proof.
  intros Hcur. destruct cur as [|c cur]; cbn [Py.flush]; [done|].
  constructor; [|done]. by apply all_chars_rev_onto.
Qed.

Lemma all_chars_split_ws_go s : ∀ cur,
  all_q s → all_q cur → Forall (λ w, all_q w) (Py.split_ws_go cur s).
Proof.
  induction s as [|c s IH]; intros cur Hs Hcur; cbn [Py.split_ws_go].
  - by apply all_chars_flush.
  - apply all_chars_cons in Hs as [Hc Hs]. destruct (Py.isspace c).
    + apply Forall_app. split; [by apply all_chars_flush|by apply IH].
    + apply IH; [done|]. by apply all_chars_cons.
Qed.

Lemma all_chars_split_ws s : all_q s → Forall (λ w, all_q w) (Py.split_ws s).
Proof. intros Hs. by apply all_chars_split_ws_go. Qed.

Lemma all_chars_item (l : list string) i :
  Forall (λ w, all_q w) l → all_q (default "" (l !! i)).
Proof.
  intros Hl. destruct (l !! i) as [w|] eqn:Hw; [|done].
  cbn. by apply (Forall_lookup_1 _ _ _ _ Hl Hw).
Qed.

Lemma all_chars_slice_from n : ∀ s, all_q s → all_q (Py.slice_from n s).
Proof.
  induction n as [|n IH]; intros [|c s] Hs; try done.
  cbn. apply IH. by apply all_chars_cons in Hs as [_ ?].
Qed.

Lemma all_chars_substring n : ∀ m s, all_q s → all_q (String.substring n m s).
Proof.
  induction n as [|n IHn].
  - intros m. induction m as [|m IHm]; intros [|c s] Hs; try done.
    apply all_chars_cons in Hs as [Hc Hs]. cbn.
    apply all_chars_cons. split; [done|]. by apply IHm.
  - intros m [|c s] Hs; [done|]. cbn. apply IHn.
    by apply all_chars_cons in Hs as [_ ?].
Qed.

Lemma all_chars_remove c s : all_q s → all_q (Py.remove c s).
Proof.
  induction s as [|d s IH]; [done|]. intros [Hd Hs]%all_chars_cons. cbn.
  destruct (Ascii.eqb d c); [by apply IH|].
  apply all_chars_cons. split; [done|]. by apply IH.
Qed.

Lemma all_chars_take_until p s : all_q s → all_q (Py.take_until p s).
Proof.
  induction s as [|d s IH]; [done|]. intros [Hd Hs]%all_chars_cons. cbn.
  destruct (p d); [done|]. apply all_chars_cons. split; [done|]. by apply IH.
Qed.

Lemma all_chars_drop_scheme url : all_q url → all_q (Url.drop_scheme url).
Proof.
  intros Hurl. unfold Url.drop_scheme.
  destruct (Py.find ":" url) as [[|i]|]; try done.
  destruct url as [|c0 r]; [done|].
  destruct (_ && _); [|done]. by apply all_chars_slice_from.
Qed.

(** The netloc returned by the parser is made of characters of the URL. *)
Lemma all_chars_urlparse_netloc `{UrlChecks} url netloc :
  all_q url → Url.urlparse_netloc url = Some netloc → all_q netloc.
Proof.
  intros Hurl. unfold Url.urlparse_netloc.
  set (url' := Url.drop_scheme _).
  assert (all_q url') as Hurl'.
  { apply all_chars_drop_scheme. do 3 apply all_chars_remove.
    by apply all_chars_lstrip. }
  destruct (String.eqb _ _); [|by intros [= <-]].
  destruct (_ || _); [done|]. destruct (_ && _); [done|].
  destruct (Url.checknetloc _); [|done]. intros Heq.
  assert (netloc = Py.take_until Url.netloc_delim (Py.slice_from 2 url')) as ->
    by congruence.
  by apply all_chars_take_until, all_chars_slice_from.
Qed.

End PyFacts.

(** ** More facts about the string primitives *)

Section StripFacts.

Implicit Types (s t : string) (c : ascii) (p q : ascii → bool).

Lemma app_empty_r s : s +:+ "" = s.
Proof.
  induction s as [|c s IH]; [done|].
  change (String c s +:+ "") with (String c (s +:+ "")). by rewrite IH.
Qed.

Lemma all_chars_app q s t :
  Py.all_chars q (s +:+ t) = Py.all_chars q s && Py.all_chars q t.
Proof.
  induction s as [|c s IH]; [done|].
  change (String c s +:+ t) with (String c (s +:+ t)).
  cbn [Py.all_chars]. by rewrite IH, andb_assoc.
Qed.

Lemma all_chars_impl p q s :
  (∀ c, p c = true → q c = true) →
  Py.all_chars p s = true → Py.all_chars q s = true.
Proof.
  intros Hpq. induction s as [|c s IH]; [done|]. cbn.
  intros [Hc Hs]%andb_true_iff. by rewrite (Hpq c Hc), IH.
Qed.

Lemma rstrip_with_all p t : Py.all_chars p t = true → Py.rstrip_with p t = "".
Proof.
  induction t as [|c t IH]; [done|]. cbn.
  intros [Hc Ht]%andb_true_iff. by rewrite IH, Hc.
Qed.

Lemma rstrip_with_app_all p s t :
  Py.all_chars p t = true → Py.rstrip_with p (s +:+ t) = Py.rstrip_with p s.
Proof.
  intros Ht. induction s as [|c s IH].
  - by apply rstrip_with_all.
  - change (String c s +:+ t) with (String c (s +:+ t)).
    cbn [Py.rstrip_with]. by rewrite IH.
Qed.

Lemma rstrip_with_last p s c :
  last_char s = Some c → p c = false → Py.rstrip_with p s = s.
Proof.
  intros Hlast Hc. induction s as [|a s IH]; [done|].
  destruct s as [|b s].
  - cbn in Hlast |- *. injection Hlast as ->. by rewrite Hc.
  - change (Py.rstrip_with p (String a (String b s)))
      with (match Py.rstrip_with p (String b s) with
            | "" => if p a then "" else String a ""
            | String _ _ as r' => String a r'
            end).
    by rewrite IH.
Qed.

Lemma lstrip_with_first p s c :
  first_char s = Some c → p c = false → Py.lstrip_with p s = s.
Proof.
  destruct s as [|a s]; [done|]. cbn. intros [= ->] Hc. by rewrite Hc.
Qed.

Lemma strip_with_ends p s c1 c2 :
  first_char s = Some c1 → p c1 = false →
  last_char s = Some c2 → p c2 = false →
  Py.strip_with p s = s.
Proof.
  intros Hf Hc1 Hl Hc2. unfold Py.strip_with.
  rewrite (lstrip_with_first p s c1) by done. by apply (rstrip_with_last p s c2).
Qed.

Lemma last_char_app s t : t ≠ "" → last_char (s +:+ t) = last_char t.
Proof.
  intros Ht. induction s as [|a s IH]; [done|].
  change (String a s +:+ t) with (String a (s +:+ t)).
  cbn [last_char]. destruct (s +:+ t) eqn:Hst; [|done].
  destruct s; [|done]. by change (t = "") in Hst.
Qed.

Lemma last_char_all_chars q s :
  s ≠ "" → Py.all_chars q s = true → ∃ c, last_char s = Some c ∧ q c = true.
Proof.
  induction s as [|a s IH]; [done|]. intros _ [Ha Hs]%andb_true_iff.
  destruct s as [|b s]; [by exists a|].
  destruct IH as (c & Hc & Hq); [done|done|]. by exists c.
Qed.

Lemma first_char_app s t : s ≠ "" → first_char (s +:+ t) = first_char s.
Proof. by destruct s. Qed.

Lemma startswith_all_chars q pre : ∀ s,
  Py.startswith s pre = true →
  Py.all_chars q s = true → Py.all_chars q pre = true.
Proof.
  induction pre as [|a pre IH]; intros [|b s]; try done.
  cbn [Py.startswith Py.all_chars].
  intros [Hab Hsp]%andb_true_iff [Hb Hs]%andb_true_iff.
  apply Ascii.eqb_eq in Hab as ->. by rewrite Hb, (IH s).
Qed.

Lemma startswith_foreign q s pre :
  Py.all_chars q s = true → Py.all_chars q pre = false →
  Py.startswith s pre = false.
Proof.
  intros Hs Hp. destruct (Py.startswith s pre) eqn:Hsp; [|done].
  by rewrite (startswith_all_chars q pre s Hsp Hs) in Hp.
Qed.

Lemma contains_foreign q s sub :
  Py.all_chars q s = true → Py.all_chars q sub = false →
  Py.contains sub s = false.
Proof.
  intros Hs Hsub. induction s as [|c s IH]; cbn [Py.contains].
  - by rewrite (startswith_foreign q "" sub).
  - rewrite (startswith_foreign q (String c s) sub) by done.
    apply andb_true_iff in Hs as [_ Hs]. by apply IH.
Qed.

Lemma startswith_first s c a pre :
  first_char s = Some c → Ascii.eqb c a = false →
  Py.startswith s (String a pre) = false.
Proof. destruct s as [|b s]; [done|]. cbn. by intros [= ->] ->. Qed.

(** Without whitespace, [s.split()] has at most one item. *)
Lemma split_ws_go_no_space s : ∀ cur,
  Py.all_chars (λ c, negb (Py.isspace c)) s = true →
  length (Py.split_ws_go cur s) ≤ 1.
Proof.
  induction s as [|c s IH]; intros cur Hs; cbn [Py.split_ws_go].
  - destruct cur; cbn; lia.
  - apply andb_true_iff in Hs as [Hc Hs]. apply negb_true_iff in Hc.
    rewrite Hc. by apply IH.
Qed.

End StripFacts.

(** ** The regular expression matcher *)

Section Regex.

Implicit Types (s before rest : string) (p : list Re.item).

(** A successful repetition splits the remaining text into the characters
    it took and the text handed to the continuation. *)
Lemma rep_sound cls k rest : ∀ lo hi before,
  Re.rep cls k lo hi before rest = true →
  ∃ taken rest',
    rest = taken +:+ rest'
    ∧ Py.all_chars cls taken = true
    ∧ lo ≤ String.length taken
    ∧ (∀ n, hi = Some n → String.length taken ≤ n)
    ∧ k (Py.rev_onto taken before) rest' = true.
Proof.
  induction rest as [|c r IH]; intros lo hi before Hrep; cbn [Re.rep] in Hrep.
  - apply andb_true_iff in Hrep as [Hlo Hk]. apply Nat.eqb_eq in Hlo as ->.
    exists "", "". repeat split; cbn; [lia..|done].
  - apply orb_true_iff in Hrep as [Htake|Hstop].
    + apply andb_true_iff in Htake as [Hc Hrec].
      apply andb_true_iff in Hc as [Hc Hhi].
      apply IH in Hrec as (taken & rest' & -> & Hall & Hlo & Hup & Hk).
      exists (String c taken), rest'. repeat split.
      * cbn. by rewrite Hc, Hall.
      * cbn. lia.
      * intros n ->. destruct n as [|n]; [done|].
        cbn. apply le_n_S, Hup. done.
      * done.
    + apply andb_true_iff in Hstop as [Hlo Hk]. apply Nat.eqb_eq in Hlo as ->.
      exists "", (String c r). repeat split; cbn; [lia..|done].
Qed.

(** Conversely, any admissible split is found by the backtracking
    search. *)
Lemma rep_complete cls k taken : ∀ rest' lo hi before,
  Py.all_chars cls taken = true →
  lo ≤ String.length taken →
  (∀ n, hi = Some n → String.length taken ≤ n) →
  k (Py.rev_onto taken before) rest' = true →
  Re.rep cls k lo hi before (taken +:+ rest') = true.
Proof.
  induction taken as [|c t IH]; intros rest' lo hi before Hall Hlo Hup Hk.
  - cbn in Hlo. assert (lo = 0) as -> by lia.
    change ("" +:+ rest') with rest'. cbn in Hk.
    destruct rest'; cbn [Re.rep]; rewrite Hk; cbn; by rewrite ?orb_true_r.
  - change (String c t +:+ rest') with (String c (t +:+ rest')).
    cbn [Re.rep]. cbn in Hall. apply andb_true_iff in Hall as [Hc Hall].
    apply orb_true_iff. left. rewrite Hc. cbn.
    assert (Re.may_take hi = true) as ->.
    { destruct hi as [[|n]|]; try done. specialize (Hup 0 eq_refl). cbn in Hup. lia. }
    cbn. apply IH; [done| cbn in Hlo; lia | | done].
    intros n Hn. destruct hi as [m|]; [|done]. cbn in Hn.
    injection Hn as <-. specialize (Hup m eq_refl). cbn in Hup. lia.
Qed.

(** A pattern anchored by [^] only matches at the start of the text. *)
Lemma search_from_bol p rest : ∀ c before,
  Re.search_from (Re.Bol :: p) (String c before) rest = false.
Proof.
  induction rest as [|d r IH]; intros c before; cbn; [done|]. apply IH.
Qed.

Lemma search_bol p s :
  Re.search (Re.Bol :: p) s = Re.matches (Re.Bol :: p) "" s.
Proof.
  unfold Re.search. destruct s as [|c r].
  - cbn [Re.search_from]. by rewrite orb_false_r.
  - cbn [Re.search_from]. by rewrite search_from_bol, orb_false_r.
Qed.

End Regex.

(** ** The language of [domain_regex] *)

Section ValidDomain.

Implicit Types (d label tld tail : string).

Lemma at_eol_iff rest :
  Re.at_eol rest = true ↔ rest = "" ∨ rest = String Py.lf "".
Proof.
  destruct rest as [|c [|c' r]]; cbn.
  - split; [by left|done].
  - split.
    + intros Hc%Ascii.eqb_eq. right. by rewrite Hc.
    + intros [|[= ->]]; done.
  - split; [done|]. intros [|]; done.
Qed.

(** [is_valid_domain] accepts exactly the strings made of one label, one
    dot and an alphabetic suffix, optionally followed by one newline. *)
Lemma is_valid_domain_shape d :
  is_valid_domain d = true ↔
  ∃ label tld tail,
    d = label +:+ String "." (tld +:+ tail)
    ∧ Py.all_chars label_char label = true
    ∧ 1 ≤ String.length label ≤ 63
    ∧ Re.first_is "-" label = false
    ∧ Re.first_is "-" (Py.rev label) = false
    ∧ Py.all_chars Py.isalpha_ascii tld = true
    ∧ 2 ≤ String.length tld
    ∧ (tail = "" ∨ tail = String Py.lf "").
Proof.
  unfold is_valid_domain, domain_regex. rewrite search_bol.
  cbn [Re.matches Py.truthy negb andb]. split.
  - intros Hm. apply andb_true_iff in Hm as [Hhead Hrep].
    apply negb_true_iff in Hhead.
    apply rep_sound in Hrep as (label & rest1 & -> & Hlab & Hlo & Hhi & Hk).
    apply andb_true_iff in Hk as [Htail Hk]. apply negb_true_iff in Htail.
    destruct rest1 as [|c rest2]; [done|].
    apply andb_true_iff in Hk as [Hdot Hrep]. apply Ascii.eqb_eq in Hdot as ->.
    apply rep_sound in Hrep as (tld & tail & -> & Htld & Hlo2 & _ & Hk).
    rewrite andb_true_r in Hk. apply at_eol_iff in Hk.
    exists label, tld, tail. split_and!; try done.
    + by apply Hhi.
    + destruct label; [cbn in Hlo; lia|]. done.
  - intros (label & tld & tail & -> & Hlab & [Hlo Hhi] & Hhead & Htail
            & Htld & Hlo2 & Heol).
    apply andb_true_iff. split.
    + destruct label as [|a label]; [cbn in Hlo; lia|].
      change (negb (Ascii.eqb a "-") = true). cbn in Hhead. by rewrite Hhead.
    + apply rep_complete; [done|done|by intros n [= <-]|].
      fold (Py.rev label). rewrite Htail. cbn [negb andb].
      rewrite Ascii.eqb_refl. cbn [andb].
      apply rep_complete; [done|done|done|].
      rewrite andb_true_r. by apply at_eol_iff.
Qed.

Lemma count_app c s t : Py.count c (s +:+ t) = Py.count c s + Py.count c t.
Proof.
  induction s as [|a s IH]; [done|].
  change (String a s +:+ t) with (String a (s +:+ t)).
  cbn [Py.count]. rewrite IH. lia.
Qed.

Lemma count_all_chars q c s :
  Py.all_chars q s = true → q c = false → Py.count c s = 0.
Proof.
  intros Hall Hc. induction s as [|a s IH]; [done|].
  cbn in Hall |- *. apply andb_true_iff in Hall as [Ha Hall].
  destruct (Ascii.eqb_spec a c) as [->|_]; [congruence|]. by rewrite IH.
Qed.

(** An accepted string contains exactly one dot. *)
Lemma is_valid_domain_one_dot d :
  is_valid_domain d = true → Py.count "." d = 1.
Proof.
  intros (label & tld & tail & -> & Hlab & _ & _ & _ & Htld & _ & Htail)
    %is_valid_domain_shape.
  rewrite count_app. cbn [Py.count]. rewrite Ascii.eqb_refl, count_app.
  rewrite (count_all_chars _ _ _ Hlab), (count_all_chars _ _ _ Htld) by done.
  by destruct Htail as [-> | ->].
Qed.

End ValidDomain.

(** ** The processing loop *)

Section ProcessLoop.

Context `{UrlChecks}.

Implicit Types (acc : gset string * gset string) (raw : list string).

(** What one iteration adds: nothing, or the accepted domain to the
    first set and possibly to the second. *)
Lemma process_step_cases kw src acc line :
  let d := normalize_domain line src in
  (process_step kw src acc line = acc)
  ∨ (Py.truthy d = true ∧ is_valid_domain d = true
     ∧ (process_step kw src acc line).1 = acc.1 ∪ {[ d ]}
     ∧ ((process_step kw src acc line).2 = acc.2
        ∨ (process_step kw src acc line).2 = acc.2 ∪ {[ d ]})).
Proof.
  intros d. subst d. destruct acc as [normalized priority].
  unfold process_step.
  destruct (Py.truthy _) eqn:Ht; [|by left].
  destruct (is_valid_domain _) eqn:Hv; [|by left].
  cbn [andb]. right.
  destruct (_ && _); cbn; auto.
Qed.

(** An invariant of the accumulator is an invariant of the loop. *)
Lemma process_fold_invariant (I : gset string * gset string → Prop) kw src :
  (∀ acc line, I acc → I (process_step kw src acc line)) →
  ∀ raw acc, I acc → I (fold_left (process_step kw src) raw acc).
Proof.
  intros Hstep raw. induction raw as [|line raw IH]; intros acc Hacc; [done|].
  cbn [fold_left]. apply IH, Hstep, Hacc.
Qed.

(** C9. The priority set returned by [process_domains] is contained in
    the normalized set returned with it, for every list of raw lines,
    every keyword list and every source name. *)
Theorem process_priority_subset raw kw src :
  (process_domains raw kw src).2 ⊆ (process_domains raw kw src).1.
Proof.
  unfold process_domains.
  apply (process_fold_invariant (λ acc, acc.2 ⊆ acc.1)); [|done].
  intros acc line Hacc.
  destruct (process_step_cases kw src acc line) as [->|(_ & _ & -> & [->| ->])].
  - done.
  - by apply union_subseteq_l'.
  - by apply union_mono_r.
Qed.

End ProcessLoop.

(** ** The normaliser only rearranges characters of the lowered line *)

Section NormalizeChars.

Context `{UrlChecks}.

Variable q : ascii → bool.
Hypothesis q_http : Py.all_chars q "http://" = true.

#[local] Abbreviation all_q s := (Py.all_chars q s = true).

Lemma all_chars_csv_step domain src domain' :
  all_q domain → csv_step domain src = Some domain' → all_q domain'.
Proof.
  intros Hd. unfold csv_step. destruct (_ && _); [|by intros [= <-]].
  destruct (1 <? _); [|by intros [= <-]].
  set (url := Py.strip_chars _ _).
  assert (all_q url) as Hurl.
  { apply all_chars_strip_with, all_chars_item. by apply all_chars_split. }
  destruct (Py.startswith url "http"); [|by intros [= <-]].
  by apply all_chars_urlparse_netloc.
Qed.

Lemma all_chars_adguard_step domain : all_q domain → all_q (adguard_step domain).
Proof.
  intros Hd. unfold adguard_step. destruct (_ && _).
  - by apply all_chars_substring.
  - destruct (Py.startswith _ _); [|done]. by apply (all_chars_slice_from q 2).
Qed.

Lemma all_chars_hosts_step domain : all_q domain → all_q (hosts_step domain).
Proof.
  intros Hd. unfold hosts_step. destruct (Py.startswith_any _ _); [|done].
  destruct (1 <? _); [|done]. by apply all_chars_item, all_chars_split_ws.
Qed.

Lemma all_chars_markers_step domain : all_q domain → all_q (markers_step domain).
Proof.
  intros Hd. unfold markers_step, Py.lstrip_chars, Py.rstrip_chars.
  by do 2 apply all_chars_lstrip; apply all_chars_rstrip, all_chars_lstrip.
Qed.

Lemma all_chars_protocol_step domain : all_q domain → all_q (protocol_step domain).
Proof.
  intros Hd. unfold protocol_step. destruct (Py.startswith_any _ _); [|done].
  destruct (Url.urlparse_netloc _) as [netloc|] eqn:Hnet; [|done].
  apply (all_chars_urlparse_netloc q _ _) in Hnet; [done|].
  destruct (Py.startswith_any _ _); [done|].
  by rewrite all_chars_app, q_http.
Qed.

Lemma all_chars_port_step domain : all_q domain → all_q (port_step domain).
Proof.
  intros Hd. unfold port_step. destruct (_ && _); [|done].
  by apply all_chars_item, all_chars_split.
Qed.

Lemma all_chars_path_step domain : all_q domain → all_q (path_step domain).
Proof.
  intros Hd. unfold path_step.
  set (domain' := if Py.contains "/" domain then _ else _).
  assert (all_q domain') as Hd'.
  { subst domain'. destruct (Py.contains _ _); [|done].
    by apply all_chars_item, all_chars_split. }
  destruct (Py.contains "?" domain'); [|done].
  by apply all_chars_item, all_chars_split.
Qed.

Lemma all_chars_normalize_domain domain src :
  all_q (Py.lower (Py.strip domain)) → all_q (normalize_domain domain src).
Proof.
  intros Hd. unfold normalize_domain.
  destruct (negb (Py.truthy domain)); [done|].
  destruct (_ || _); [done|].
  destruct (csv_step _ _) as [domain'|] eqn:Hcsv; [|done].
  apply all_chars_csv_step in Hcsv; [|done].
  apply all_chars_strip_with, all_chars_path_step, all_chars_port_step,
    all_chars_protocol_step, all_chars_markers_step, all_chars_hosts_step,
    all_chars_adguard_step, Hcsv.
Qed.

End NormalizeChars.

Section Lowercase.

Context `{UrlChecks}.

Lemma lower_char_not_upper c : not_upper (Py.lower_char c) = true.
Proof. by destruct c as [[] [] [] [] [] [] [] []]. Qed.

Lemma all_chars_lower s : Py.all_chars not_upper (Py.lower s) = true.
Proof.
  induction s as [|c s IH]; [done|]. cbn [Py.lower Py.all_chars].
  by rewrite lower_char_not_upper, IH.
Qed.

Lemma lower_fixed s : Py.all_chars not_upper s = true → Py.lower s = s.
Proof.
  induction s as [|c s IH]; [done|]. cbn [Py.lower Py.all_chars].
  intros [Hc Hs]%andb_true_iff. rewrite IH by done.
  unfold Py.lower_char. unfold not_upper in Hc.
  by destruct (Py.isupper c).
Qed.

(** Whatever the line and the source, the normaliser returns a string
    without upper-case characters. *)
Lemma normalize_domain_not_upper domain src :
  Py.all_chars not_upper (normalize_domain domain src) = true.
Proof.
  apply all_chars_normalize_domain; [done|]. apply all_chars_lower.
Qed.

(** C10. Every element of the normalized set returned by
    [process_domains] is a non-empty string that [is_valid_domain] accepts
    and that contains no upper-case character, so that it is its own
    lowercasing; in particular the empty string is no element. *)
Theorem process_accepts_canonical raw kw src d :
  d ∈ (process_domains raw kw src).1 →
  d ≠ "" ∧ is_valid_domain d = true
  ∧ Py.all_chars not_upper d = true ∧ Py.lower d = d.
Proof.
  revert d. unfold process_domains.
  apply (process_fold_invariant
           (λ acc, ∀ d, d ∈ acc.1 →
                        d ≠ "" ∧ is_valid_domain d = true
                        ∧ Py.all_chars not_upper d = true ∧ Py.lower d = d)).
  - intros acc line Hacc d.
    destruct (process_step_cases kw src acc line) as [->|(Ht & Hv & -> & _)];
      [by apply Hacc|].
    rewrite elem_of_union, elem_of_singleton. intros [Hd| ->]; [by apply Hacc|].
    pose proof (normalize_domain_not_upper line src) as Hlow.
    split_and!; [|done|done|by apply lower_fixed].
    intros Hempty. by rewrite Hempty in Ht.
  - intros d Hd. by apply elem_of_empty in Hd.
Qed.

End Lowercase.

Lemma process_accepts_canonical_witness :
  "example.com" ∈ (@process_domains lenient_checks ["Example.COM"] None None).1
  ∧ ("example.com" ≠ "" ∧ is_valid_domain "example.com" = true
     ∧ Py.all_chars not_upper "example.com" = true
     ∧ Py.lower "example.com" = "example.com").
Proof.
  assert ("example.com"
          ∈ (@process_domains lenient_checks ["Example.COM"] None None).1) as Hin.
  { change ("example.com" ∈ (∅ ∪ {[ "example.com" ]} : gset string)).
    apply elem_of_union_r, elem_of_singleton. reflexivity. }
  split; [exact Hin|].
  exact (@process_accepts_canonical lenient_checks _ _ _ _ Hin).
Defined.

(** ** Runs of the normaliser on given lines *)

Section Runs.

Context `{UrlChecks}.

Lemma csv_step_no_comma domain src :
  Py.contains "," domain = false → csv_step domain src = Some domain.
Proof. intros Hc. unfold csv_step. by rewrite Hc, andb_false_r. Qed.

(** The source name only matters for lines with a comma. *)
Lemma normalize_domain_no_comma domain src :
  Py.contains "," (Py.lower (Py.strip domain)) = false →
  normalize_domain domain src = normalize_domain domain None.
Proof.
  intros Hc. unfold normalize_domain.
  destruct (negb (Py.truthy domain)); [done|].
  destruct (_ || _); [done|].
  by rewrite !csv_step_no_comma.
Qed.

(** A line on which the normaliser returns an empty or invalid string
    leaves both sets of the batch empty. *)
Lemma process_single_rejected line kw src :
  Py.truthy (normalize_domain line src)
  && is_valid_domain (normalize_domain line src) = false →
  process_domains [line] kw src = (∅, ∅).
Proof.
  intros Hrej. unfold process_domains. cbn [fold_left].
  unfold process_step. by rewrite Hrej.
Qed.

(** C8. Each of the lines ["# comment"], [""], ["not a domain"] and
    ["toolonglabel"] followed by 70 times ["a"] and [".com"] is rejected:
    the string returned by [normalize_domain] is empty or fails
    [is_valid_domain], and [process_domains] on that line returns two empty
    sets, for every keyword list and every source name.  The functions are
    total: no exception escapes. *)
Theorem malformed_lines_rejected kw src :
  Forall
    (λ line,
       Py.truthy (normalize_domain line src)
       && is_valid_domain (normalize_domain line src) = false
       ∧ process_domains [line] kw src = (∅, ∅))
    [ "# comment"; ""; "not a domain";
      "toolonglabelaaaaaaaaaaaaaaaaaaaaaaaaaaaaaaaaaaaaaaaaaaaaaaaaaaaaaaaaaaaaaaaaaaaaaa.com" ].
Proof.
  assert (∀ line,
    Py.contains "," (Py.lower (Py.strip line)) = false →
    Py.truthy (normalize_domain line None)
    && is_valid_domain (normalize_domain line None) = false →
    Py.truthy (normalize_domain line src)
    && is_valid_domain (normalize_domain line src) = false
    ∧ process_domains [line] kw src = (∅, ∅)) as Hline.
  { intros line Hc Hrej.
    rewrite <- (normalize_domain_no_comma line src Hc) in Hrej.
    split; [done|]. by apply process_single_rejected. }
  repeat apply Forall_cons_2; [..|apply Forall_nil_2];
    apply Hline; vm_compute; reflexivity.
Qed.

Lemma rstrip_with_keep p c s :
  p c = false → Py.rstrip_with p (String c s) = String c (Py.rstrip_with p s).
Proof. intros Hc. cbn. rewrite Hc. by destruct (Py.rstrip_with p s). Qed.

(** A line that starts with [ftp://], the remainder [r] left open. *)
#[local] Abbreviation ftp_line r :=
  (String "f" (String "t" (String "p" (String ":" (String "/" (String "/" r)))))).

Lemma ftp_line_lower_strip rest :
  Py.lower (Py.strip (ftp_line rest))
  = ftp_line (Py.lower (Py.rstrip_with Py.isspace rest)).
Proof.
  unfold Py.strip, Py.strip_with.
  change (Py.lstrip_with Py.isspace (ftp_line rest)) with (ftp_line rest).
  by rewrite !rstrip_with_keep by reflexivity.
Qed.

Lemma ftp_line_markers_step r :
  markers_step (ftp_line r) = ftp_line (Py.rstrip_with (Py.char_in "^") r).
Proof.
  unfold markers_step, Py.rstrip_chars.
  change (Py.lstrip_chars "|" (ftp_line r)) with (ftp_line r).
  by rewrite !rstrip_with_keep by reflexivity.
Qed.

(** The URL handed to the parser is [http://ftp://...]: its authority
    component is [ftp:]. *)
Lemma ftp_line_protocol_step r : protocol_step (ftp_line r) = "ftp:".
Proof. reflexivity. Qed.

Lemma ftp_line_normalize rest :
  normalize_domain ("ftp://" +:+ rest) None = "ftp".
Proof.
  change ("ftp://" +:+ rest) with (ftp_line rest).
  unfold normalize_domain. cbn [Py.truthy negb].
  rewrite ftp_line_lower_strip.
  set (r := Py.lower _). clearbody r.
  change (csv_step (ftp_line r) None) with (Some (ftp_line r)).
  cbv iota beta.
  change (adguard_step (ftp_line r)) with (ftp_line r).
  change (hosts_step (ftp_line r)) with (ftp_line r).
  rewrite ftp_line_markers_step, ftp_line_protocol_step.
  reflexivity.
Qed.

(** C2 (the code departs from the claim). A line that starts with
    [ftp://] is handed to the parser as [http://ftp://...], whose authority
    component is [ftp:]; the normaliser therefore returns ["ftp"] whatever
    follows the prefix, [is_valid_domain] refuses it, and the line leaves
    the batch empty.  So does the line ["ftp://example.com/files"], for
    every source name: the bare domain ["example.com"] is not produced. *)
Theorem ftp_lines_collapse rest kw src :
  normalize_domain ("ftp://" +:+ rest) None = "ftp"
  ∧ is_valid_domain "ftp" = false
  ∧ process_domains ["ftp://" +:+ rest] kw None = (∅, ∅)
  ∧ normalize_domain "ftp://example.com/files" src = "ftp"
  ∧ process_domains ["ftp://example.com/files"] kw src = (∅, ∅).
Proof.
  assert (normalize_domain "ftp://example.com/files" src = "ftp") as Hex.
  { rewrite normalize_domain_no_comma by reflexivity.
    apply (ftp_line_normalize "example.com/files"). }
  split_and!.
  - apply ftp_line_normalize.
  - reflexivity.
  - apply process_single_rejected. by rewrite ftp_line_normalize.
  - exact Hex.
  - apply process_single_rejected. by rewrite Hex.
Qed.

(** C1.  The validation step refuses what the claim says it accepts:
    [is_valid_domain] returns [false] on every string with two or more
    dots, hence on every domain of three or more labels, among them
    ["sub.bad-site.com"] and ["ads.example.com"]; and a line that the
    normaliser turns into such a name leaves the batch empty.  The
    hosts-file, AdGuard and URL branches of [normalize_domain] do produce
    such names: ["0.0.0.0 ads.example.com"] gives ["ads.example.com"],
    ["||tracker.example.net^"] gives ["tracker.example.net"] and
    ["https://sub.Bad-Site.COM:8080/path?x=1"] gives ["sub.bad-site.com"];
    [process_domains] then drops each of them, for every keyword list and
    source name.  The regular expression has the grammar of one label and
    a final label, without the repetition of labels. *)
Theorem multi_label_domains_dropped :
  (∀ d, 2 ≤ Py.count "." d → is_valid_domain d = false)
  ∧ (∀ line kw src,
       2 ≤ Py.count "." (normalize_domain line src) →
       process_domains [line] kw src = (∅, ∅))
  ∧ is_valid_domain "sub.bad-site.com" = false
  ∧ is_valid_domain "ads.example.com" = false
  ∧ is_valid_domain "tracker.example.net" = false
  ∧ ∀ kw src,
      (normalize_domain "https://sub.Bad-Site.COM:8080/path?x=1" src
       = "sub.bad-site.com"
       ∧ process_domains ["https://sub.Bad-Site.COM:8080/path?x=1"] kw src
         = (∅, ∅))
      ∧ (normalize_domain "0.0.0.0 ads.example.com" src = "ads.example.com"
         ∧ process_domains ["0.0.0.0 ads.example.com"] kw src = (∅, ∅))
      ∧ (normalize_domain "||tracker.example.net^" src
         = "tracker.example.net"
         ∧ process_domains ["||tracker.example.net^"] kw src = (∅, ∅)).
Proof.
  assert (∀ d, 2 ≤ Py.count "." d → is_valid_domain d = false) as Hrej.
  { intros d Hdots. destruct (is_valid_domain d) eqn:Hv; [|done].
    apply is_valid_domain_one_dot in Hv. lia. }
  assert (∀ line kw src d,
            normalize_domain line None = d →
            Py.contains "," (Py.lower (Py.strip line)) = false →
            is_valid_domain d = false →
            normalize_domain line src = d
            ∧ process_domains [line] kw src = (∅, ∅)) as Hline.
  { intros line kw src d Hd Hc Hv.
    assert (normalize_domain line src = d) as Hex
      by by rewrite normalize_domain_no_comma.
    split; [exact Hex|]. apply process_single_rejected.
    rewrite Hex, Hv. apply andb_false_r. }
  split_and!; try reflexivity.
  - exact Hrej.
  - intros line kw src Hdots. apply process_single_rejected.
    rewrite (Hrej _ Hdots). apply andb_false_r.
  - intros kw src. split; [|split]; by apply Hline.
Qed.

End Runs.

Lemma multi_label_domains_dropped_witness :
  (2 ≤ Py.count "." "sub.bad-site.com"
   ∧ is_valid_domain "sub.bad-site.com" = false)
  ∧ (2 ≤ Py.count "."
           (@normalize_domain lenient_checks "127.0.0.1 cdn.ads.example.com"
              None)
     ∧ @process_domains lenient_checks ["127.0.0.1 cdn.ads.example.com"]
         None None = (∅, ∅)).
Proof.
  pose proof (@multi_label_domains_dropped lenient_checks)
    as (Hrej & Hdrop & _).
  split.
  - split; [vm_compute; lia|]. apply Hrej. vm_compute. lia.
  - split; [vm_compute; lia|]. apply Hdrop. vm_compute. lia.
Defined.

(** ** The normaliser on bare host names *)

Section BareHosts.

Context `{UrlChecks}.

Ltac char_cases c :=
  destruct c as [[] [] [] [] [] [] [] []]; vm_compute; try done;
  repeat split; congruence.

Lemma host_char_no_space c : host_char c = true → negb (Py.isspace c) = true.
Proof. char_cases c. Qed.

Lemma alnum_char_facts c :
  alnum_char c = true →
  Py.isspace c = false
  ∧ Ascii.eqb c "#" = false ∧ Ascii.eqb c "!" = false
  ∧ Ascii.eqb c ";" = false ∧ Ascii.eqb c "|" = false
  ∧ Py.char_in "|" c = false ∧ Py.char_in "*." c = false
  ∧ Py.char_in "." c = false ∧ Py.char_in unwanted_chars c = false.
Proof. char_cases c. Qed.

Lemma alpha_char_facts c :
  Py.isalpha_ascii c = true →
  Py.isspace c = false ∧ Py.char_in "^" c = false
  ∧ Py.char_in unwanted_chars c = false.
Proof. char_cases c. Qed.

Lemma label_char_host c : label_char c = true → host_char c = true.
Proof. unfold host_char. by intros ->. Qed.

Lemma alpha_char_host c : Py.isalpha_ascii c = true → host_char c = true.
Proof. unfold host_char, label_char. by intros ->. Qed.

Lemma fixed_by_lower_not_upper c : Py.lower_char c = c → not_upper c = true.
Proof. char_cases c. Qed.

Lemma lower_fixed_inv s : Py.lower s = s → Py.all_chars not_upper s = true.
Proof.
  induction s as [|c s IH]; [done|]. cbn [Py.lower Py.all_chars].
  intros [= Hc Hs]. by rewrite (fixed_by_lower_not_upper c Hc), IH.
Qed.

Section Steps.

Variable y : string.
Hypothesis Hy : bare_host y.

Lemma bare_host_strip tail :
  tail = "" ∨ tail = String Py.lf "" → Py.strip (y +:+ tail) = y.
Proof.
  intros Htail. destruct Hy as [_ _ (c0 & Hf & Ha) (cl & Hl & Hal)].
  apply alnum_char_facts in Ha as (Hsp0 & _).
  apply alpha_char_facts in Hal as (Hspl & _).
  unfold Py.strip, Py.strip_with.
  rewrite (lstrip_with_first _ _ c0); [|by rewrite first_char_app by (by destruct y)|done].
  rewrite rstrip_with_app_all by (by destruct Htail as [-> | ->]).
  by apply (rstrip_with_last _ _ cl).
Qed.

Lemma bare_host_not_comment :
  negb (Py.truthy y) || Py.startswith y "#" || Py.startswith y "!"
  || Py.startswith y ";" = false.
Proof.
  destruct Hy as [_ _ (c0 & Hf & Ha) _].
  apply alnum_char_facts in Ha as (_ & H1 & H2 & H3 & _).
  rewrite !(startswith_first y c0) by done.
  by destruct y.
Qed.

Lemma bare_host_csv_step src : csv_step y src = Some y.
Proof.
  apply csv_step_no_comma. apply (contains_foreign host_char); [|done].
  apply Hy.
Qed.

Lemma bare_host_adguard_step : adguard_step y = y.
Proof.
  destruct Hy as [_ _ (c0 & Hf & Ha) _].
  apply alnum_char_facts in Ha as (_ & _ & _ & _ & Hbar & _).
  unfold adguard_step. by rewrite !(startswith_first y c0).
Qed.

Lemma bare_host_hosts_step :
  hosts_step y = if Py.startswith_any y hosts_prefixes then "" else y.
Proof.
  unfold hosts_step. destruct (Py.startswith_any y hosts_prefixes); [|done].
  assert (length (Py.split_ws y) ≤ 1) as Hlen.
  { apply split_ws_go_no_space.
    apply (all_chars_impl host_char); [apply host_char_no_space|apply Hy]. }
  destruct (Nat.ltb_spec 1 (length (Py.split_ws y))); [lia|done].
Qed.

Lemma bare_host_markers_step : markers_step y = y.
Proof.
  destruct Hy as [_ _ (c0 & Hf & Ha) (cl & Hl & Hal)].
  apply alnum_char_facts in Ha as (_ & _ & _ & _ & _ & Hbar & Hstar & Hdot & _).
  apply alpha_char_facts in Hal as (_ & Hcaret & _).
  unfold markers_step, Py.lstrip_chars, Py.rstrip_chars.
  rewrite (lstrip_with_first _ y c0) by done.
  rewrite (rstrip_with_last _ y cl) by done.
  by rewrite !(lstrip_with_first _ y c0).
Qed.

Lemma bare_host_protocol_step : protocol_step y = y.
Proof.
  unfold protocol_step.
  assert (Py.startswith_any y ["http://"; "https://"; "ftp://"] = false) as ->;
    [|done].
  cbn [Py.startswith_any existsb].
  by rewrite !(startswith_foreign host_char y) by (done || apply Hy).
Qed.

Lemma bare_host_port_step : port_step y = y.
Proof.
  unfold port_step.
  by rewrite (contains_foreign host_char y ":") by (done || apply Hy).
Qed.

Lemma bare_host_path_step : path_step y = y.
Proof.
  unfold path_step.
  by rewrite !(contains_foreign host_char y) by (done || apply Hy).
Qed.

Lemma bare_host_final_strip : Py.strip_chars unwanted_chars y = y.
Proof.
  destruct Hy as [_ _ (c0 & Hf & Ha) (cl & Hl & Hal)].
  apply alnum_char_facts in Ha as (_ & _ & _ & _ & _ & _ & _ & _ & Hu0).
  apply alpha_char_facts in Hal as (_ & _ & Hul).
  by apply (strip_with_ends _ y c0 cl).
Qed.

(** On a bare host name, followed or not by a newline, the normaliser
    returns the name itself, unless the name starts with one of the
    hosts-file tokens: then the hosts-file step finds no second field and
    the result is empty. *)
Lemma normalize_bare_host tail src :
  tail = "" ∨ tail = String Py.lf "" →
  normalize_domain (y +:+ tail) src
  = if Py.startswith_any y hosts_prefixes then "" else y.
Proof.
  intros Htail. unfold normalize_domain.
  assert (Py.truthy (y +:+ tail) = true) as ->.
  { destruct Hy as [_ _ (c0 & Hf & _) _]. by destruct y. }
  cbn [negb]. rewrite (bare_host_strip tail Htail).
  rewrite (lower_fixed y) by apply Hy.
  rewrite bare_host_not_comment, bare_host_csv_step, bare_host_adguard_step.
  rewrite bare_host_hosts_step.
  destruct (Py.startswith_any y hosts_prefixes); [reflexivity|].
  by rewrite bare_host_markers_step, bare_host_protocol_step,
    bare_host_port_step, bare_host_path_step, bare_host_final_strip.
Qed.

End Steps.

End BareHosts.

(** ** Idempotence of the normaliser on canonical domains *)

Section Idempotence.

Context `{UrlChecks}.

Lemma app_assoc_str (s t u : string) : (s +:+ t) +:+ u = s +:+ (t +:+ u).
Proof.
  induction s as [|c s IH]; [done|].
  change (String c (s +:+ t) +:+ u = String c (s +:+ (t +:+ u))).
  change (String c ((s +:+ t) +:+ u) = String c (s +:+ (t +:+ u))).
  by rewrite IH.
Qed.

(** A lower-case string accepted by [is_valid_domain] is a bare host name,
    possibly followed by one newline. *)
Lemma valid_lower_bare_host x :
  is_valid_domain x = true → Py.lower x = x →
  ∃ y tail,
    x = y +:+ tail ∧ bare_host y ∧ (tail = "" ∨ tail = String Py.lf "").
Proof.
  intros (label & tld & tail & -> & Hlab & [Hlo _] & Hhead & _ & Htld & Hlo2
          & Htail)%is_valid_domain_shape Hlow.
  exists (label +:+ String "." tld), tail.
  assert ((label +:+ String "." tld) +:+ tail
          = label +:+ String "." (tld +:+ tail)) as Heq
    by apply app_assoc_str.
  split_and!; [done| |done].
  rewrite <- Heq in Hlow. apply lower_fixed_inv in Hlow.
  rewrite all_chars_app in Hlow. apply andb_true_iff in Hlow as [Hlow _].
  split.
  - rewrite all_chars_app. cbn [Py.all_chars].
    rewrite (all_chars_impl _ _ _ label_char_host Hlab).
    by rewrite (all_chars_impl _ _ _ alpha_char_host Htld).
  - done.
  - destruct label as [|c0 label]; [cbn in Hlo; lia|].
    exists c0. split; [done|].
    cbn in Hlab, Hhead. apply andb_true_iff in Hlab as [Hc0 _].
    unfold label_char in Hc0. rewrite Hhead, orb_false_r in Hc0. done.
  - rewrite last_char_app by done.
    destruct tld as [|c1 tld]; [cbn in Hlo2; lia|].
    destruct (last_char_all_chars Py.isalpha_ascii (String c1 tld))
      as (c & Hc & Hal); [done|done|].
    exists c. split; [|done].
    by change (last_char (String "." (String c1 tld)))
      with (last_char (String c1 tld)).
Qed.

(** The value of the normaliser on a canonical domain. *)
Lemma normalize_canonical_value x src :
  is_valid_domain x = true → Py.lower x = x →
  ∃ y, bare_host y
       ∧ normalize_domain x src
         = (if Py.startswith_any y hosts_prefixes then "" else y)
       ∧ normalize_domain y src
         = (if Py.startswith_any y hosts_prefixes then "" else y).
Proof.
  intros Hv Hlow.
  destruct (valid_lower_bare_host x Hv Hlow) as (y & tail & -> & Hy & Htail).
  exists y. split_and!; [done|by apply normalize_bare_host|].
  rewrite <- (app_empty_r y) at 1. apply normalize_bare_host; auto.
Qed.

(** C7. Normalisation is idempotent on canonical input: for every
    lower-case string [x] accepted by [is_valid_domain] and every source
    name, normalising the result of [normalize_domain] again returns it
    unchanged.  The same holds for every bare host name, whatever the
    number of its labels.  In particular ["VALID-Domain.IO"] is normalised
    to ["valid-domain.io"], which is normalised to itself. *)
Theorem normalize_idempotent_on_canonical :
  (∀ x src,
     is_valid_domain x = true → Py.lower x = x →
     normalize_domain (normalize_domain x src) src = normalize_domain x src)
  ∧ (∀ y src,
       bare_host y →
       normalize_domain (normalize_domain y src) src = normalize_domain y src)
  ∧ normalize_domain "VALID-Domain.IO" None = "valid-domain.io"
  ∧ normalize_domain "valid-domain.io" None = "valid-domain.io".
Proof.
  split_and!; [| |reflexivity..].
  - intros x src Hv Hlow.
    destruct (normalize_canonical_value x src Hv Hlow) as (y & Hy & -> & Hyy).
    destruct (Py.startswith_any y hosts_prefixes); [reflexivity|exact Hyy].
  - intros y src Hy.
    pose proof (normalize_bare_host y Hy "" src (or_introl eq_refl)) as Hyy.
    rewrite app_empty_r in Hyy. rewrite Hyy.
    destruct (Py.startswith_any y hosts_prefixes); [reflexivity|exact Hyy].
Qed.

End Idempotence.

Lemma normalize_idempotent_on_canonical_witness :
  is_valid_domain "example.com" = true
  ∧ Py.lower "example.com" = "example.com"
  ∧ @normalize_domain lenient_checks
      (@normalize_domain lenient_checks "example.com" None) None
    = @normalize_domain lenient_checks "example.com" None.
Proof.
  split; [reflexivity|]. split; [reflexivity|].
  apply (proj1 (@normalize_idempotent_on_canonical lenient_checks));
    reflexivity.
Defined.

(** ** The merger *)

Section Merger.

Implicit Types (existing incoming : gset string) (l : list string).

Lemma sorted_Permutation l : sorted l ≡ₚ l.
Proof. apply merge_sort_Permutation. Qed.

Lemma sorted_StronglySorted l : StronglySorted String.le (sorted l).
Proof. apply (StronglySorted_merge_sort _). Qed.

(** The result of [sorted] does not depend on the order in which the
    elements of a set are enumerated. *)
Lemma sorted_perm_invariant l1 l2 : l1 ≡ₚ l2 → sorted l1 = sorted l2.
Proof.
  intros Hp. apply (StronglySorted_unique String.le).
  - apply sorted_StronglySorted.
  - apply sorted_StronglySorted.
  - by rewrite !sorted_Permutation.
Qed.

Lemma elem_of_sorted x l : x ∈ sorted l ↔ x ∈ l.
Proof. by rewrite sorted_Permutation. Qed.

Lemma str_le_neq_lt (a b : string) : String.le a b → a ≠ b → str_lt a b.
Proof.
  unfold String.le, str_lt, String.leb, String.ltb. intros Hle Hne.
  destruct (String.compare a b) eqn:Hc; try done.
  by apply String.compare_eq_iff in Hc.
Qed.

Lemma str_lt_irrefl (a : string) : ¬ str_lt a a.
Proof.
  unfold str_lt, String.ltb.
  intros Hlt. pose proof (String.compare_antisym a a) as Hanti.
  destruct (String.compare a a); done.
Qed.

Lemma StronglySorted_le_lt l :
  NoDup l → StronglySorted String.le l → StronglySorted str_lt l.
Proof.
  intros Hnd Hs. induction Hs as [|x l Hs IH Hall]; [constructor|].
  apply NoDup_cons in Hnd as [Hx Hnd].
  constructor; [by apply IH|].
  rewrite Forall_forall in Hall |- *. intros y Hy.
  apply str_le_neq_lt; [by apply Hall|]. intros ->. done.
Qed.

Lemma StronglySorted_lt_NoDup l : StronglySorted str_lt l → NoDup l.
Proof.
  induction 1 as [|x l Hs IH Hall]; [constructor|].
  apply NoDup_cons. split; [|done].
  intros Hx. rewrite Forall_forall in Hall.
  by apply (str_lt_irrefl x), Hall.
Qed.

Lemma merge_final_eq existing incoming priority :
  (merge_domains existing incoming priority).1
  = sorted (elements (existing ∪ incoming)).
Proof. reflexivity. Qed.

Lemma elem_of_merge_final existing incoming priority d :
  d ∈ (merge_domains existing incoming priority).1
  ↔ d ∈ existing ∨ d ∈ incoming.
Proof.
  rewrite merge_final_eq, elem_of_sorted, elem_of_elements. set_solver.
Qed.

(** C3. Append-only merge: every domain of the existing corpus appears in
    the final sorted list returned by [merge_domains], whatever the
    incoming batch and the priority set are. *)
Theorem merge_append_only existing incoming priority d :
  d ∈ existing → d ∈ (merge_domains existing incoming priority).1.
Proof. intros Hd. apply elem_of_merge_final. by left. Qed.

Lemma merge_append_only_witness :
  "a.com" ∈ ({[ "a.com"; "b.com" ]} : gset string)
  ∧ "a.com" ∈ (merge_domains {[ "a.com"; "b.com" ]} {[ "c.com" ]} None).1.
Proof.
  split; [set_solver|]. apply merge_append_only. set_solver.
Defined.

(** C4. The priority argument is inert: two calls of [merge_domains] that
    differ only in the priority set return the same final list and the
    same statistics, and the [priority_count] statistic is 0. *)
Theorem merge_priority_inert existing incoming priority1 priority2 :
  merge_domains existing incoming priority1
  = merge_domains existing incoming priority2
  ∧ priority_count (merge_domains existing incoming priority1).2 = 0.
Proof. split; reflexivity. Qed.

(** C5. The final list returned by [merge_domains] is strictly ascending
    in the code point order of strings; hence it has no duplicates, and
    its length is the cardinality of the union of the existing and the
    incoming set. *)
Theorem merge_strictly_ascending existing incoming priority :
  let final := (merge_domains existing incoming priority).1 in
  StronglySorted str_lt final
  ∧ NoDup final
  ∧ length final = size (existing ∪ incoming).
Proof.
  intros final. subst final. rewrite merge_final_eq.
  assert (NoDup (sorted (elements (existing ∪ incoming)))) as Hnd.
  { rewrite sorted_Permutation. apply NoDup_elements. }
  split_and!.
  - apply StronglySorted_le_lt; [done|apply sorted_StronglySorted].
  - done.
  - by rewrite sorted_Permutation.
Qed.

(** C6. Merging an empty batch is a no-op: with the final list of a merge
    taken as the existing set, an empty incoming set and an empty
    priority set, [merge_domains] returns that same final list. *)
Theorem merge_empty_batch_noop existing incoming priority :
  let final := (merge_domains existing incoming priority).1 in
  (merge_domains (list_to_set final) ∅ (Some ∅)).1 = final.
Proof.
  intros final. subst final. rewrite !merge_final_eq.
  apply sorted_perm_invariant.
  apply NoDup_Permutation; [apply NoDup_elements..|].
  intros d. rewrite !elem_of_elements.
  rewrite elem_of_union, elem_of_list_to_set, elem_of_sorted, elem_of_elements.
  rewrite elem_of_empty. tauto.
Qed.

End Merger.

(** ** Sample runs *)

Section Scenarios.

Context `{UrlChecks}.

Example normalize_hosts_line :
  normalize_domain "0.0.0.0 ads.example.com" None = "ads.example.com".
Proof. reflexivity. Qed.

Example normalize_adguard_line :
  normalize_domain "||tracker.example.net^" None = "tracker.example.net".
Proof. reflexivity. Qed.

Example normalize_phishtank_row :
  normalize_domain
    ("1," +:+ String Py.dquote
       ("http://phish.example.org/login" +:+ String Py.dquote ",x"))
    (Some "phishtank")
  = "phish.example.org".
Proof. reflexivity. Qed.

Example normalize_localhost_name :
  normalize_domain "localhost.com" None = "".
Proof. reflexivity. Qed.

Example process_two_label_lines kw :
  (process_domains ["Example.COM"; "http://b.org/x"; "# note"] kw None).1
  = ∅ ∪ {[ "example.com" ]} ∪ {[ "b.org" ]}.
Proof.
  unfold process_domains. cbn [fold_left]. unfold process_step.
  change (normalize_domain "Example.COM" None) with "example.com".
  change (normalize_domain "http://b.org/x" None) with "b.org".
  change (normalize_domain "# note" None) with "".
  change (is_valid_domain "example.com") with true.
  change (is_valid_domain "b.org") with true.
  cbn [Py.truthy andb]. by repeat destruct (_ && _).
Qed.

Example label_of_63_accepted :
  is_valid_domain "aaaaaaaaaaaaaaaaaaaaaaaaaaaaaaaaaaaaaaaaaaaaaaaaaaaaaaaaaaaaaaa.com" = true.
Proof. reflexivity. Qed.

Example label_of_64_refused :
  is_valid_domain "aaaaaaaaaaaaaaaaaaaaaaaaaaaaaaaaaaaaaaaaaaaaaaaaaaaaaaaaaaaaaaaa.com" = false.
Proof. reflexivity. Qed.

Example hyphen_rules :
  is_valid_domain "-a.com" = false ∧ is_valid_domain "a-.com" = false
  ∧ is_valid_domain "a-b.com" = true ∧ is_valid_domain "a.c" = false
  ∧ is_valid_domain "a.c0m" = false ∧ is_valid_domain "x a.com" = false.
Proof. repeat split. Qed.

Example merge_scenario :
  merge_domains {[ "a.com"; "b.com" ]} {[ "b.com"; "c.com" ]} (Some ∅)
  = ( ["a.com"; "b.com"; "c.com"],
      {| existing_count := 2; new_count := 2; newly_added_count := 1;
         total_count := 3; priority_count := 0 |} ).
Proof. vm_compute. reflexivity. Qed.

End Scenarios.

(** * Further properties *)

(** ** The merger: content of the final list, statistics, repeated runs *)

Section MergerMore.

Implicit Types (existing incoming : gset string).

Lemma size_difference_union existing incoming :
  size (existing ∪ incoming) = size existing + size (incoming ∖ existing).
Proof. apply size_union_alt. Qed.

Lemma difference_empty_subseteq existing incoming :
  size (incoming ∖ existing) = 0 ↔ incoming ⊆ existing.
Proof.
  rewrite size_empty_iff. split.
  - intros Hempty d Hd. destruct (decide (d ∈ existing)) as [|Hn]; [done|].
    exfalso. apply (not_elem_of_empty (C:=gset string) d).
    apply Hempty, elem_of_difference. done.
  - intros Hsub d. rewrite elem_of_difference. split.
    + intros [Hd Hn]. destruct Hn. by apply Hsub.
    + intros Hd. by apply not_elem_of_empty in Hd.
Qed.

Lemma union_absorb_r existing incoming :
  existing ∪ incoming ∪ incoming = existing ∪ incoming.
Proof. by rewrite <- (assoc_L (∪)), (idemp_L (∪)). Qed.

Lemma list_to_set_merge_final existing incoming priority :
  list_to_set (merge_domains existing incoming priority).1
  = existing ∪ incoming.
Proof.
  apply set_eq. intros d.
  rewrite elem_of_list_to_set, elem_of_merge_final, elem_of_union. done.
Qed.

(** The final list holds the union of the two sets and nothing else: a
    domain is in it exactly when it is in the existing corpus or in the
    incoming batch. *)
Theorem merge_final_exact existing incoming priority d :
  d ∈ (merge_domains existing incoming priority).1
  ↔ d ∈ existing ∨ d ∈ incoming.
Proof.
  rewrite merge_final_eq, elem_of_sorted, elem_of_elements. apply elem_of_union.
Qed.

(** The statistics agree with the final list and with each other. *)
Theorem merge_stats_consistent existing incoming priority :
  let final := (merge_domains existing incoming priority).1 in
  let stats := (merge_domains existing incoming priority).2 in
  total_count stats = length final
  ∧ newly_added_count stats = total_count stats - existing_count stats
  ∧ existing_count stats ≤ total_count stats
  ∧ total_count stats ≤ existing_count stats + new_count stats
  ∧ (newly_added_count stats = 0 ↔ incoming ⊆ existing).
Proof.
  cbn. pose proof (size_difference_union existing incoming) as Hsz.
  assert (size (incoming ∖ existing) ≤ size incoming) as Hle.
  { apply subseteq_size. intros d Hd. by apply elem_of_difference in Hd as [? _]. }
  split_and!; try lia.
  - unfold sorted. by rewrite merge_sort_Permutation.
  - apply difference_empty_subseteq.
Qed.

(** A batch merged a second time adds nothing: with the final list of a
    merge as the existing set and the same batch again, the final list is
    unchanged and [newly_added_count] is 0. *)
Theorem merge_same_batch_again existing incoming priority priority' :
  let final := (merge_domains existing incoming priority).1 in
  let again := merge_domains (list_to_set final) incoming priority' in
  again.1 = final
  ∧ newly_added_count again.2 = 0
  ∧ total_count again.2 = existing_count again.2.
Proof.
  cbn zeta. rewrite list_to_set_merge_final.
  pose proof (union_absorb_r existing incoming) as Hu.
  split_and!.
  - rewrite !merge_final_eq. by rewrite Hu.
  - cbn. apply difference_empty_subseteq. apply union_subseteq_r.
  - cbn. by rewrite Hu.
Qed.

(** Two batches merged one after the other give the final list of one
    merge of their union, in either order of the batches. *)
Theorem merge_batches_in_sequence existing batch1 batch2 p1 p2 p3 :
  let step1 := (merge_domains existing batch1 p1).1 in
  (merge_domains (list_to_set step1) batch2 p2).1
  = (merge_domains existing (batch1 ∪ batch2) p3).1
  ∧ (merge_domains existing (batch1 ∪ batch2) p3).1
    = (merge_domains existing (batch2 ∪ batch1) p3).1.
Proof.
  cbn zeta. rewrite list_to_set_merge_final, !merge_final_eq.
  split.
  - by rewrite (assoc_L (∪)).
  - by rewrite (comm_L (∪) batch1 batch2).
Qed.

End MergerMore.

(** ** Substring tests and priority keywords *)

Section Keywords.

Implicit Types (s sub pre : string) (keywords : list string).

Lemma startswith_iff pre : ∀ s,
  Py.startswith s pre = true ↔ ∃ rest, s = pre +:+ rest.
Proof.
  induction pre as [|a pre IH]; intros s.
  - split; [by exists s|done].
  - destruct s as [|b s]; cbn [Py.startswith].
    + split; [done|]. by intros (rest & ?).
    + rewrite andb_true_iff, IH. split.
      * intros [->%Ascii.eqb_eq (rest & ->)]. by exists rest.
      * intros (rest & Heq).
        change (String a pre +:+ rest) with (String a (pre +:+ rest)) in Heq.
        injection Heq as -> ->. split; [apply Ascii.eqb_refl|by exists rest].
Qed.

(** [sub in s] holds exactly when [s] is [sub] with something before and
    something after. *)
Lemma contains_iff sub s :
  Py.contains sub s = true ↔ ∃ before after, s = before +:+ sub +:+ after.
Proof.
  induction s as [|c s IH]; cbn [Py.contains].
  - rewrite orb_false_r, startswith_iff. split.
    + intros (rest & Heq). by exists "", rest.
    + intros (before & after & Heq). destruct before; [by exists after|done].
  - rewrite orb_true_iff, startswith_iff, IH. split.
    + intros [(rest & Heq)|(before & after & ->)].
      * by exists "", rest.
      * by exists (String c before), after.
    + intros (before & after & Heq). destruct before as [|b before].
      * left. by exists after.
      * change (String b before +:+ sub +:+ after)
          with (String b (before +:+ sub +:+ after)) in Heq.
        injection Heq as -> ->. right. by exists before, after.
Qed.

(** A domain has a priority keyword exactly when one of the keywords
    occurs in it as a substring.  Hence no keyword list, no match; and an
    empty keyword matches every domain. *)
Theorem has_priority_keywords_iff domain keywords :
  (has_priority_keywords domain keywords = true
   ↔ ∃ keyword before after,
       keyword ∈ keywords ∧ domain = before +:+ keyword +:+ after)
  ∧ has_priority_keywords domain [] = false
  ∧ ("" ∈ keywords → has_priority_keywords domain keywords = true).
Proof.
  assert (has_priority_keywords domain keywords = true
          ↔ ∃ keyword before after,
              keyword ∈ keywords ∧ domain = before +:+ keyword +:+ after) as Hiff.
  { unfold has_priority_keywords. rewrite existsb_exists. split.
    - intros (keyword & Hin%list_elem_of_In & Hc%contains_iff).
      destruct Hc as (before & after & ->). by exists keyword, before, after.
    - intros (keyword & before & after & Hin & ->). exists keyword.
      split; [by apply list_elem_of_In|]. apply contains_iff. by exists before, after. }
  split_and!; [done|done|].
  intros Hin. apply Hiff. by exists "", "", domain.
Qed.

End Keywords.

Lemma has_priority_keywords_iff_witness :
  "" ∈ ["bet"; ""]
  ∧ has_priority_keywords "example.com" ["bet"; ""] = true.
Proof.
  split; [apply list_elem_of_In; cbn; auto|].
  apply (proj2 (proj2 (has_priority_keywords_iff "example.com" ["bet"; ""]))).
  apply list_elem_of_In. cbn. auto.
Defined.

(** ** The sets returned by [process_domains] *)

Section ProcessSets.

Context `{UrlChecks}.

Implicit Types (raw : list string) (kw : option (list string))
  (src : option string) (acc : gset string * gset string).

(** The line [line] is accepted as the domain [d]. *)
#[local] Abbreviation accepted src line d :=
  (normalize_domain line%string src = d%string ∧ Py.truthy d%string = true
   ∧ is_valid_domain d%string = true).

#[local] Abbreviation tagged kw d :=
  (keywords_truthy kw = true
   ∧ has_priority_keywords d%string (default [] kw) = true).

Lemma process_step_eq kw src acc line :
  process_step kw src acc line
  = let d := normalize_domain line src in
    if Py.truthy d && is_valid_domain d then
      (acc.1 ∪ {[ d ]},
       if keywords_truthy kw && has_priority_keywords d (default [] kw)
       then acc.2 ∪ {[ d ]} else acc.2)
    else acc.
Proof.
  destruct acc as [normalized priority]. unfold process_step. cbn zeta.
  destruct (_ && _); [|done]. by destruct (_ && _).
Qed.

Lemma process_fold_normalized kw src raw : ∀ acc d,
  d ∈ (fold_left (process_step kw src) raw acc).1
  ↔ d ∈ acc.1 ∨ ∃ line, line ∈ raw ∧ accepted src line d.
Proof.
  induction raw as [|line0 raw IH]; intros acc d; cbn [fold_left].
  - split; [by left|]. intros [?|(line & Hin & _)]; [done|].
    by apply elem_of_nil in Hin.
  - rewrite IH, process_step_eq. cbn zeta.
    destruct (Py.truthy _) eqn:Ht; cbn [andb];
      [destruct (is_valid_domain _) eqn:Hv|]; cbn [fst].
    + rewrite elem_of_union, elem_of_singleton. split.
      * intros [[?| ->]|(line & Hin & Hacc)]; [by left| |].
        -- right. exists line0. split; [apply list_elem_of_here|done].
        -- right. exists line. split; [by apply list_elem_of_further|done].
      * intros [?|(line & Hin & Hacc)]; [by left; left|].
        apply elem_of_cons in Hin as [->|Hin].
        -- left. right. by destruct Hacc as [<- _].
        -- right. by exists line.
    + split.
      * intros [?|(line & Hin & Hacc)]; [by left|].
        right. exists line. split; [by apply list_elem_of_further|done].
      * intros [?|(line & Hin & Hacc)]; [by left|].
        apply elem_of_cons in Hin as [->|Hin]; [|right; by exists line].
        destruct Hacc as (<- & _ & Hv'). congruence.
    + split.
      * intros [?|(line & Hin & Hacc)]; [by left|].
        right. exists line. split; [by apply list_elem_of_further|done].
      * intros [?|(line & Hin & Hacc)]; [by left|].
        apply elem_of_cons in Hin as [->|Hin]; [|right; by exists line].
        destruct Hacc as (<- & Ht' & _). congruence.
Qed.

Lemma process_fold_priority kw src raw : ∀ acc d,
  d ∈ (fold_left (process_step kw src) raw acc).2
  ↔ d ∈ acc.2 ∨ ((∃ line, line ∈ raw ∧ accepted src line d) ∧ tagged kw d).
Proof.
  induction raw as [|line0 raw IH]; intros acc d; cbn [fold_left].
  - split; [by left|]. intros [?|[(line & Hin & _) _]]; [done|].
    by apply elem_of_nil in Hin.
  - rewrite IH, process_step_eq. cbn zeta.
    set (d0 := normalize_domain line0 src).
    assert ((∃ line, line ∈ line0 :: raw ∧ accepted src line d)
            ↔ accepted src line0 d ∨ ∃ line, line ∈ raw ∧ accepted src line d)
      as Hcons.
    { split.
      - intros (line & [->|Hin]%elem_of_cons & Hacc); [by left|].
        right. by exists line.
      - intros [Hacc|(line & Hin & Hacc)].
        + exists line0. split; [apply list_elem_of_here|done].
        + exists line. split; [by apply list_elem_of_further|done]. }
    rewrite Hcons. clear Hcons.
    destruct (Py.truthy d0 && is_valid_domain d0) eqn:Hok.
    + apply andb_true_iff in Hok as [Ht Hv].
      destruct (keywords_truthy kw && has_priority_keywords d0 (default [] kw))
        eqn:Htag; cbn [snd].
      * apply andb_true_iff in Htag as [Hk Hp].
        rewrite elem_of_union, elem_of_singleton. split.
        -- intros [[?| ->]|[Hex Htg]]; [by left| |right].
           ++ right. split; [by left|done].
           ++ split; [by right|done].
        -- intros [?|[[(Heq & _)|Hex] Htg]]; [by left; left| |].
           ++ left. right. by rewrite <- Heq.
           ++ right. done.
      * split.
        -- intros [?|[Hex Htg]]; [by left|]. right. split; [by right|done].
        -- intros [?|[[(Heq & _)|Hex] [Hk Hp]]]; [by left| |by right].
           subst d. unfold d0 in Htag. rewrite Hk, Hp in Htag. done.
    + split.
      * intros [?|[Hex Htg]]; [by left|]. right. split; [by right|done].
      * intros [?|[[(Heq & Ht & Hv)|Hex] Htg]]; [by left| |by right].
        subst d. unfold d0 in Hok. rewrite Ht, Hv in Hok. done.
Qed.

(** A domain is in the normalized set exactly when some line of the batch
    is normalised to it and it is non-empty and valid. *)
Theorem process_normalized_iff raw kw src d :
  d ∈ (process_domains raw kw src).1
  ↔ ∃ line, line ∈ raw ∧ normalize_domain line src = d
            ∧ Py.truthy d = true ∧ is_valid_domain d = true.
Proof.
  unfold process_domains. rewrite process_fold_normalized. cbn [fst]. split.
  - intros [Hd|?]; [by apply elem_of_empty in Hd|done].
  - by right.
Qed.

(** A domain is in the priority set exactly when it is in the normalized
    set, the keyword list is given and not empty, and one of the keywords
    occurs in the domain.  Without keywords the priority set is empty. *)
Theorem process_priority_iff raw kw src d :
  (d ∈ (process_domains raw kw src).2
   ↔ d ∈ (process_domains raw kw src).1
     ∧ keywords_truthy kw = true
     ∧ has_priority_keywords d (default [] kw) = true)
  ∧ (process_domains raw None src).2 = ∅
  ∧ (process_domains raw (Some []) src).2 = ∅.
Proof.
  assert (∀ kw', d ∈ (process_domains raw kw' src).2
   ↔ d ∈ (process_domains raw kw' src).1
     ∧ keywords_truthy kw' = true
     ∧ has_priority_keywords d (default [] kw') = true) as Hiff.
  { intros kw'. unfold process_domains.
    rewrite process_fold_priority, process_fold_normalized. cbn [fst snd].
    split.
    - intros [Hd|[Hex Htg]]; [by apply elem_of_empty in Hd|]. split; [by right|done].
    - intros [[Hd|Hex] Htg]; [by apply elem_of_empty in Hd|]. by right. }
  assert (∀ kw', keywords_truthy kw' = false →
                 (process_domains raw kw' src).2 = ∅) as Hnone.
  { intros kw' Hk. apply set_eq. intros d'. unfold process_domains.
    rewrite process_fold_priority. cbn [snd]. split.
    - intros [Hd|[_ [Hk' _]]]; [done|congruence].
    - intros Hd. by apply elem_of_empty in Hd. }
  split_and!; [apply Hiff|by apply Hnone..].
Qed.

(** The result depends only on which lines occur in the batch, not on
    their order or their repetitions; and the batch of two lists put
    together gives the unions of what each list gives. *)
Theorem process_batch_as_set raw1 raw2 kw src :
  ((∀ line, line ∈ raw1 ↔ line ∈ raw2) →
   process_domains raw1 kw src = process_domains raw2 kw src)
  ∧ (process_domains (raw1 ++ raw2) kw src).1
    = (process_domains raw1 kw src).1 ∪ (process_domains raw2 kw src).1
  ∧ (process_domains (raw1 ++ raw2) kw src).2
    = (process_domains raw1 kw src).2 ∪ (process_domains raw2 kw src).2.
Proof.
  split_and!.
  - intros Hsame.
    assert (∀ d, (∃ line, line ∈ raw1 ∧ accepted src line d)
                 ↔ (∃ line, line ∈ raw2 ∧ accepted src line d)) as Hex.
    { intros d. split; intros (line & Hin & Hacc); exists line;
        (split; [by apply Hsame|done]). }
    unfold process_domains.
    destruct (fold_left _ raw1 _) as [n1 p1] eqn:H1.
    destruct (fold_left _ raw2 _) as [n2 p2] eqn:H2.
    f_equal; apply set_eq; intros d.
    + pose proof (process_fold_normalized kw src raw1 (∅, ∅) d) as Ha.
      pose proof (process_fold_normalized kw src raw2 (∅, ∅) d) as Hb.
      rewrite H1 in Ha. rewrite H2 in Hb. cbn [fst] in Ha, Hb.
      rewrite Ha, Hb. by rewrite Hex.
    + pose proof (process_fold_priority kw src raw1 (∅, ∅) d) as Ha.
      pose proof (process_fold_priority kw src raw2 (∅, ∅) d) as Hb.
      rewrite H1 in Ha. rewrite H2 in Hb. cbn [snd] in Ha, Hb.
      rewrite Ha, Hb. by rewrite Hex.
  - apply set_eq. intros d. unfold process_domains.
    rewrite elem_of_union, !process_fold_normalized. cbn [fst]. split.
    + intros [Hd|(line & [Hin|Hin]%elem_of_app & Hacc)];
        [by apply elem_of_empty in Hd|left|right]; right; by exists line.
    + intros [[Hd|(line & Hin & Hacc)]|[Hd|(line & Hin & Hacc)]];
        try (by apply elem_of_empty in Hd);
        right; exists line; (split; [apply elem_of_app; auto|done]).
  - apply set_eq. intros d. unfold process_domains.
    rewrite elem_of_union, !process_fold_priority. cbn [snd]. split.
    + intros [Hd|[(line & [Hin|Hin]%elem_of_app & Hacc) Htg]];
        [by apply elem_of_empty in Hd|left|right]; right;
        (split; [by exists line|done]).
    + intros [[Hd|[(line & Hin & Hacc) Htg]]|[Hd|[(line & Hin & Hacc) Htg]]];
        try (by apply elem_of_empty in Hd);
        right; (split; [|done]); exists line;
        (split; [apply elem_of_app; auto|done]).
Qed.

(** No more domains than lines. *)
Theorem process_size_bound raw kw src :
  size (process_domains raw kw src).2 ≤ size (process_domains raw kw src).1
  ∧ size (process_domains raw kw src).1 ≤ length raw.
Proof.
  split.
  - apply subseteq_size. intros d.
    unfold process_domains.
    rewrite process_fold_priority, process_fold_normalized. cbn [fst snd].
    intros [Hd|[Hex _]]; [by apply elem_of_empty in Hd|by right].
  - unfold process_domains.
    assert (∀ acc, size (fold_left (process_step kw src) raw acc).1
                   ≤ size acc.1 + length raw) as Hgen.
    { induction raw as [|line raw IH]; intros acc; cbn [fold_left length]; [lia|].
      etrans; [apply IH|]. rewrite process_step_eq. cbn zeta.
      destruct (_ && _); cbn [fst]; [|lia].
      rewrite size_union_alt.
      assert (size ({[normalize_domain line src]} ∖ acc.1 : gset string) ≤ 1).
      { etrans; [apply subseteq_size|by rewrite size_singleton].
        intros d Hd. by apply elem_of_difference in Hd as [? _]. }
      lia. }
    specialize (Hgen (∅, ∅)). cbn [fst] in Hgen. by rewrite size_empty in Hgen.
Qed.

End ProcessSets.

(** ** The language accepted by the validator *)

Section ValidatorLanguage.

Implicit Types (s t acc : string).

Lemma rev_onto_app s : ∀ t acc,
  Py.rev_onto (s +:+ t) acc = Py.rev_onto t (Py.rev_onto s acc).
Proof.
  induction s as [|c s IH]; intros t acc; [done|].
  change (String c s +:+ t) with (String c (s +:+ t)). cbn. apply IH.
Qed.

Lemma rev_onto_rev_onto s : ∀ a b,
  Py.rev_onto (Py.rev_onto s a) b = Py.rev_onto a (s +:+ b).
Proof.
  induction s as [|c s IH]; intros a b; [done|]. cbn. by rewrite IH.
Qed.

Lemma rev_involutive s : Py.rev (Py.rev s) = s.
Proof. unfold Py.rev. rewrite rev_onto_rev_onto. cbn. apply app_empty_r. Qed.

Lemma last_char_is_Some c s : is_Some (last_char (String c s)).
Proof.
  revert c. induction s as [|d s IH]; intros c; [by eexists|]. apply (IH d).
Qed.

Lemma first_char_rev_onto s : ∀ acc,
  first_char (Py.rev_onto s acc)
  = match last_char s with Some c => Some c | None => first_char acc end.
Proof.
  induction s as [|c s IH]; intros acc; [done|].
  cbn [Py.rev_onto]. rewrite IH. destruct s as [|d s]; [done|].
  change (last_char (String c (String d s))) with (last_char (String d s)).
  by destruct (last_char_is_Some d s) as [x ->].
Qed.

Lemma first_char_rev s : first_char (Py.rev s) = last_char s.
Proof. unfold Py.rev. rewrite first_char_rev_onto. by destruct (last_char s). Qed.

Lemma first_is_first_char c s :
  Re.first_is c s = false ↔ first_char s ≠ Some c.
Proof.
  destruct s as [|d s]; cbn; [by split|]. rewrite Ascii.eqb_neq. split.
  - intros Hne [= ->]. done.
  - intros Hne ->. done.
Qed.

(** [is_valid_domain] returns [true] exactly on the strings [label.tld],
    optionally followed by one newline, where [label] has 1 to 63 letters,
    digits or hyphens and neither starts nor ends with a hyphen, and [tld]
    has at least two letters. *)
Theorem is_valid_domain_language d :
  is_valid_domain d = true ↔
  ∃ label tld,
    (d = label +:+ "." +:+ tld
     ∨ d = label +:+ "." +:+ tld +:+ String Py.lf "")
    ∧ Py.all_chars label_char label = true
    ∧ 1 ≤ String.length label ≤ 63
    ∧ first_char label ≠ Some "-"%char
    ∧ last_char label ≠ Some "-"%char
    ∧ Py.all_chars Py.isalpha_ascii tld = true
    ∧ 2 ≤ String.length tld.
Proof.
  rewrite is_valid_domain_shape. split.
  - intros (label & tld & tail & -> & Hlab & Hlen & Hfirst & Hlast & Htld
            & Hlen2 & Htail).
    apply first_is_first_char in Hfirst, Hlast. rewrite first_char_rev in Hlast.
    exists label, tld. repeat (split; [try done|]); [|done].
    destruct Htail as [-> | ->]; [left|right]; [|done].
    by rewrite app_empty_r.
  - intros (label & tld & Hd & Hlab & Hlen & Hfirst & Hlast & Htld & Hlen2).
    rewrite <- first_char_rev in Hlast. apply first_is_first_char in Hfirst, Hlast.
    exists label, tld, (if decide (d = label +:+ "." +:+ tld) then ""
                        else String Py.lf "").
    repeat (split; [try done|]).
    + case_decide as Hdec; [by rewrite app_empty_r|].
      by destruct Hd as [Hd|Hd].
    + case_decide; auto.
Qed.

End ValidatorLanguage.

(** ** The normaliser on the line formats it handles *)

Section LineFormats.

Context `{UrlChecks}.

Implicit Types (s t y ws line : string) (src : option string).

(** The steps that follow the CSV step. *)
#[local] Abbreviation cleanup domain :=
  (Py.strip_chars unwanted_chars
     (path_step (port_step (protocol_step
        (markers_step (hosts_step (adguard_step domain%string))))))).

#[local] Abbreviation not_comma := (λ c : ascii, negb (Ascii.eqb c ",")).
#[local] Abbreviation no_space := (λ c : ascii, negb (Py.isspace c)).

Lemma lower_app s t : Py.lower (s +:+ t) = Py.lower s +:+ Py.lower t.
Proof.
  induction s as [|c s IH]; [done|].
  change (String c s +:+ t) with (String c (s +:+ t)). cbn [Py.lower].
  by rewrite IH.
Qed.

Lemma space_char_facts c :
  Py.isspace c = true → not_upper c = true ∧ not_comma c = true.
Proof.
  destruct c as [[] [] [] [] [] [] [] []]; vm_compute; try done;
    repeat split; congruence.
Qed.

Lemma host_char_facts c :
  host_char c = true →
  not_comma c = true ∧ Py.isascii_char c = true
  ∧ Url.netloc_delim c = false ∧ Ascii.eqb c Py.tab = false
  ∧ Ascii.eqb c Py.cr = false ∧ Ascii.eqb c Py.lf = false
  ∧ Ascii.eqb c ":" = false ∧ Py.isspace c = false.
Proof.
  destruct c as [[] [] [] [] [] [] [] []]; vm_compute; try done;
    repeat split; congruence.
Qed.

(** A line that is already stripped and lower-case, is no comment and has
    no comma goes straight to the clean-up steps. *)
Lemma normalize_plain_line line src c0 cl :
  first_char line = Some c0 → Py.isspace c0 = false →
  Ascii.eqb c0 "#" = false → Ascii.eqb c0 "!" = false →
  Ascii.eqb c0 ";" = false →
  last_char line = Some cl → Py.isspace cl = false →
  Py.all_chars not_upper line = true →
  Py.all_chars not_comma line = true →
  normalize_domain line src = cleanup line.
Proof.
  intros Hf Hsp0 Hh Hb Hs Hl Hspl Hlow Hcomma. unfold normalize_domain.
  assert (Py.truthy line = true) as Ht by by destruct line.
  rewrite Ht. cbn [negb]. unfold Py.strip.
  rewrite (strip_with_ends _ line c0 cl) by done.
  rewrite (lower_fixed line Hlow), Ht. cbn [negb orb].
  rewrite !(startswith_first line c0) by done. cbn [orb].
  rewrite csv_step_no_comma; [done|].
  by apply (contains_foreign not_comma).
Qed.

Lemma bare_host_tail_steps y :
  bare_host y →
  Py.strip_chars unwanted_chars
    (path_step (port_step (protocol_step (markers_step y)))) = y.
Proof.
  intros Hy.
  by rewrite bare_host_markers_step, bare_host_protocol_step,
    bare_host_port_step, bare_host_path_step, bare_host_final_strip.
Qed.

Lemma bare_host_nonempty y : bare_host y → y ≠ "".
Proof. intros [_ _ (c & Hc & _) _] ->. done. Qed.

Lemma hosts_prefix_facts token :
  token ∈ hosts_prefixes →
  token ≠ ""
  ∧ Py.all_chars no_space token = true
  ∧ Py.all_chars not_upper token = true
  ∧ Py.all_chars not_comma token = true
  ∧ ∃ c0, first_char token = Some c0 ∧ Py.isspace c0 = false
          ∧ Ascii.eqb c0 "#" = false ∧ Ascii.eqb c0 "!" = false
          ∧ Ascii.eqb c0 ";" = false ∧ Ascii.eqb c0 "|" = false.
Proof.
  unfold hosts_prefixes. rewrite !elem_of_cons, elem_of_nil.
  intros [->|[->|[->|[->|[]]]]];
    (split; [done|]); repeat (split; [reflexivity|]);
    eexists; repeat split; reflexivity.
Qed.

Lemma split_ws_go_word w : ∀ cur s,
  Py.all_chars no_space w = true →
  Py.split_ws_go cur (w +:+ s) = Py.split_ws_go (Py.rev_onto w cur) s.
Proof.
  induction w as [|c w IH]; intros cur s Hw; [done|].
  change (String c w +:+ s) with (String c (w +:+ s)).
  cbn in Hw. apply andb_true_iff in Hw as [Hc Hw].
  apply negb_true_iff in Hc. cbn [Py.split_ws_go Py.rev_onto].
  rewrite Hc. by apply IH.
Qed.

Lemma split_ws_go_spaces ws : ∀ cur s,
  ws ≠ "" → Py.all_chars Py.isspace ws = true →
  Py.split_ws_go cur (ws +:+ s) = Py.flush cur ++ Py.split_ws_go "" s.
Proof.
  induction ws as [|c ws IH]; intros cur s Hne Hws; [done|].
  change (String c ws +:+ s) with (String c (ws +:+ s)).
  cbn in Hws. apply andb_true_iff in Hws as [Hc Hws].
  cbn [Py.split_ws_go]. rewrite Hc. f_equal.
  destruct ws as [|d ws]; [done|]. by rewrite IH.
Qed.

Lemma flush_rev w : w ≠ "" → Py.flush (Py.rev w) = [w].
Proof.
  intros Hw. unfold Py.flush.
  destruct (Py.rev w) eqn:Hr.
  - apply (f_equal Py.rev) in Hr. rewrite rev_involutive in Hr. done.
  - by rewrite <- Hr, rev_involutive.
Qed.

(** [s.split()] on two words separated by whitespace. *)
Lemma split_ws_two_words w1 ws w2 :
  w1 ≠ "" → w2 ≠ "" → ws ≠ "" →
  Py.all_chars no_space w1 = true → Py.all_chars no_space w2 = true →
  Py.all_chars Py.isspace ws = true →
  Py.split_ws (w1 +:+ ws +:+ w2) = [w1; w2].
Proof.
  intros Hn1 Hn2 Hnw H1 H2 Hws. unfold Py.split_ws.
  rewrite split_ws_go_word by done. rewrite split_ws_go_spaces by done.
  fold (Py.rev w1). rewrite flush_rev by done.
  rewrite <- (app_empty_r w2) at 1. rewrite split_ws_go_word by done.
  cbn [Py.split_ws_go]. fold (Py.rev w2). by rewrite flush_rev.
Qed.

Lemma startswith_app pre rest : Py.startswith (pre +:+ rest) pre = true.
Proof. apply startswith_iff. by exists rest. Qed.

(** A hosts-file line: an address token, whitespace and a bare host name
    are normalised to the host name, whatever the source name. *)
Theorem normalize_hosts_file_line token ws y src :
  token ∈ hosts_prefixes →
  ws ≠ "" → Py.all_chars Py.isspace ws = true →
  bare_host y →
  normalize_domain (token +:+ ws +:+ y) src = y.
Proof.
  intros Htoken Hnw Hws Hy.
  pose proof (bare_host_nonempty y Hy) as Hny.
  destruct (hosts_prefix_facts token Htoken)
    as (Hnt & Htsp & Htlow & Htc & c0 & Hf & Hsp0 & Hh & Hb & Hs & Hbar).
  pose proof Hy as [Hych Hylow _ (cl & Hl & Hal)].
  apply alpha_char_facts in Hal as (Hspl & _).
  set (line := token +:+ ws +:+ y).
  assert (first_char line = Some c0) as Hfl
    by (unfold line; by rewrite first_char_app).
  assert (last_char line = Some cl) as Hll.
  { unfold line. rewrite last_char_app by by destruct ws.
    by rewrite last_char_app. }
  rewrite (normalize_plain_line line src c0 cl); try done.
  - unfold adguard_step. rewrite !(startswith_first line c0) by done.
    cbn [andb]. unfold hosts_step.
    assert (Py.startswith_any line hosts_prefixes = true) as ->.
    { apply existsb_exists. exists token.
      split; [by apply list_elem_of_In|apply startswith_app]. }
    unfold line. rewrite split_ws_two_words; try done.
    + cbn. by apply bare_host_tail_steps.
    + apply (all_chars_impl host_char); [|done].
      intros c Hc. by apply host_char_no_space.
  - unfold line. rewrite !all_chars_app, Htlow, Hylow.
    by rewrite (all_chars_impl Py.isspace not_upper ws)
      by (done || apply space_char_facts).
  - unfold line. rewrite !all_chars_app, Htc.
    rewrite (all_chars_impl Py.isspace not_comma ws)
      by (done || apply space_char_facts).
    by rewrite (all_chars_impl host_char not_comma y)
      by (done || apply host_char_facts).
Qed.

Lemma length_app_str s t :
  String.length (s +:+ t) = String.length s + String.length t.
Proof.
  induction s as [|c s IH]; [done|].
  change (String c s +:+ t) with (String c (s +:+ t)). cbn. by rewrite IH.
Qed.

Lemma substring_prefix s t : String.substring 0 (String.length s) (s +:+ t) = s.
Proof.
  induction s as [|c s IH]; [by destruct t|].
  change (String c s +:+ t) with (String c (s +:+ t)). cbn. by rewrite IH.
Qed.

Lemma rstrip_with_app_last p s t c :
  last_char s = Some c → p c = false →
  Py.rstrip_with p (s +:+ t) = s +:+ Py.rstrip_with p t.
Proof.
  intros Hl Hc. induction s as [|a s IH]; [done|].
  change (String a s +:+ t) with (String a (s +:+ t)).
  change (String a s +:+ Py.rstrip_with p t)
    with (String a (s +:+ Py.rstrip_with p t)).
  destruct s as [|b s].
  - cbn in Hl. injection Hl as ->. by apply rstrip_with_keep.
  - change (Py.rstrip_with p (String a (String b s +:+ t)))
      with (match Py.rstrip_with p (String b s +:+ t) with
            | "" => if p a then "" else String a ""
            | String _ _ as r' => String a r'
            end).
    by rewrite IH.
Qed.

Lemma endswith_last s c :
  Py.endswith s (String c "")
  = match last_char s with Some d => Ascii.eqb d c | None => false end.
Proof.
  unfold Py.endswith. pose proof (first_char_rev s) as Hf.
  destruct (Py.rev s) as [|d r]; cbn in Hf |- *; rewrite <- Hf; [done|].
  by rewrite andb_true_r.
Qed.

(** An AdGuard rule [||host^], or [||host] without the caret, is
    normalised to the host name; a host name that starts with one of the
    hosts-file tokens is lost in the hosts-file step. *)
Theorem normalize_adguard_rule y src :
  bare_host y →
  normalize_domain ("||" +:+ y +:+ "^") src
  = (if Py.startswith_any y hosts_prefixes then "" else y)
  ∧ normalize_domain ("||" +:+ y) src
    = (if Py.startswith_any y hosts_prefixes then "" else y).
Proof.
  intros Hy. pose proof (bare_host_nonempty y Hy) as Hny.
  pose proof Hy as [Hych Hylow _ (cl & Hl & Hal)].
  pose proof (alpha_char_facts cl Hal) as (Hspl & Hcaret & _).
  assert (Py.all_chars not_comma y = true) as Hyc.
  { apply (all_chars_impl host_char); [apply host_char_facts|done]. }
  assert (Py.strip_chars unwanted_chars
            (path_step (port_step (protocol_step
               (markers_step (hosts_step y)))))
          = (if Py.startswith_any y hosts_prefixes then "" else y)) as Htail.
  { rewrite bare_host_hosts_step by done.
    destruct (Py.startswith_any y hosts_prefixes); [reflexivity|].
    by apply bare_host_tail_steps. }
  split.
  - set (line := "||" +:+ y +:+ "^").
    assert (last_char line = Some "^"%char) as Hll.
    { unfold line. rewrite !last_char_app; [done..|]. by destruct y. }
    rewrite (normalize_plain_line line src "|" "^"); try done.
    + unfold adguard_step.
      rewrite endswith_last, Hll. unfold line at 1.
      rewrite startswith_app. cbn [andb Ascii.eqb Bool.eqb].
      unfold Py.slice_to_last, line.
      change ("||" +:+ y +:+ "^") with (String "|" (String "|" (y +:+ "^"))).
      cbn [String.length String.substring]. rewrite length_app_str. cbn [String.length].
      replace (S (S (String.length y + 1)) - 1 - 2) with (String.length y) by lia.
      by rewrite substring_prefix.
    + unfold line. by rewrite !all_chars_app, Hylow.
    + unfold line. by rewrite !all_chars_app, Hyc.
  - set (line := "||" +:+ y).
    assert (last_char line = Some cl) as Hll
      by (unfold line; by rewrite last_char_app).
    rewrite (normalize_plain_line line src "|" cl); try done.
    unfold adguard_step.
    rewrite endswith_last, Hll. unfold line at 1.
    rewrite startswith_app.
    assert (Ascii.eqb cl "^" = false) as ->.
    { cbn in Hcaret. by rewrite orb_false_r in Hcaret. }
    cbn [andb]. unfold line. rewrite startswith_app. done.
Qed.

(** *** URL lines *)

#[local] Abbreviation auth_char := (λ c : ascii, host_char c || Ascii.eqb c ":").

Lemma auth_char_facts c :
  auth_char c = true →
  Py.isspace c = false ∧ Py.char_in "^" c = false
  ∧ Ascii.eqb c Py.tab = false ∧ Ascii.eqb c Py.cr = false
  ∧ Ascii.eqb c Py.lf = false ∧ Url.netloc_delim c = false
  ∧ Py.isascii_char c = true.
Proof.
  destruct c as [[] [] [] [] [] [] [] []]; vm_compute; try done;
    repeat split; congruence.
Qed.

Lemma digit_char_facts c :
  Py.isdigit_ascii c = true →
  auth_char c = true ∧ not_upper c = true ∧ Ascii.eqb c ":" = false.
Proof.
  destruct c as [[] [] [] [] [] [] [] []]; vm_compute; try done;
    repeat split; congruence.
Qed.

Lemma delim_char_facts d :
  Url.netloc_delim d = true →
  Py.isspace d = false ∧ Py.char_in "^" d = false ∧ Py.lower_char d = d
  ∧ Ascii.eqb d Py.tab = false ∧ Ascii.eqb d Py.cr = false
  ∧ Ascii.eqb d Py.lf = false.
Proof.
  destruct d as [[] [] [] [] [] [] [] []]; vm_compute; try done;
    repeat split; congruence.
Qed.

Lemma path_like_rstrip p rest :
  (∀ d, Url.netloc_delim d = true → p d = false) →
  path_like rest = true → path_like (Py.rstrip_with p rest) = true.
Proof.
  intros Hp Hrest. destruct rest as [|d rest]; [done|].
  by rewrite rstrip_with_keep by by apply Hp.
Qed.

Lemma path_like_lower rest :
  path_like rest = true → path_like (Py.lower rest) = true.
Proof.
  destruct rest as [|d rest]; [done|]. cbn. intros Hd.
  by destruct (delim_char_facts d Hd) as (_ & _ & -> & _).
Qed.

Lemma path_like_remove c rest :
  (∀ d, Url.netloc_delim d = true → Ascii.eqb d c = false) →
  path_like rest = true → path_like (Py.remove c rest) = true.
Proof.
  intros Hc Hrest. destruct rest as [|d rest]; [done|].
  cbn in Hrest |- *. by rewrite (Hc d Hrest).
Qed.

Lemma remove_app c s t : Py.remove c (s +:+ t) = Py.remove c s +:+ Py.remove c t.
Proof.
  induction s as [|a s IH]; [done|].
  change (String a s +:+ t) with (String a (s +:+ t)). cbn [Py.remove].
  rewrite IH. by destruct (Ascii.eqb a c).
Qed.

Lemma remove_foreign q c s :
  Py.all_chars q s = true → (∀ a, q a = true → Ascii.eqb a c = false) →
  Py.remove c s = s.
Proof.
  intros Hs Hq. induction s as [|a s IH]; [done|].
  cbn in Hs |- *. apply andb_true_iff in Hs as [Ha Hs].
  by rewrite (Hq a Ha), IH.
Qed.

Lemma take_until_app p s t :
  Py.all_chars (λ c, negb (p c)) s = true →
  match t with "" => True | String d _ => p d = true end →
  Py.take_until p (s +:+ t) = s.
Proof.
  intros Hs Ht. induction s as [|a s IH].
  - destruct t as [|d t]; [done|].
    change ("" +:+ String d t) with (String d t). cbn. by rewrite Ht.
  - change (String a s +:+ t) with (String a (s +:+ t)).
    cbn in Hs |- *. apply andb_true_iff in Hs as [Ha Hs].
    apply negb_true_iff in Ha. by rewrite Ha, IH.
Qed.

Lemma split_first_field sep s t :
  Py.count sep s = 0 →
  Py.split sep (s +:+ String sep t) !! 0 = Some s.
Proof.
  induction s as [|a s IH]; intros Hs.
  - change ("" +:+ String sep t) with (String sep t). cbn.
    by rewrite Ascii.eqb_refl.
  - change (String a s +:+ String sep t) with (String a (s +:+ String sep t)).
    cbn in Hs |- *. destruct (Ascii.eqb a sep); [done|].
    specialize (IH Hs). destruct (Py.split sep (s +:+ String sep t)); [done|].
    cbn in IH |- *. by injection IH as ->.
Qed.

Lemma url_scheme_facts scheme :
  scheme ∈ ["http://"; "https://"] →
  Py.lower scheme = scheme
  ∧ (∀ t, first_char (scheme +:+ t) = Some "h"%char)
  ∧ (∀ t, t ≠ "" → last_char (scheme +:+ t) = last_char t)
  ∧ (∀ t, Py.startswith_any (scheme +:+ t) ["http://"; "https://"; "ftp://"]
          = true)
  ∧ (∀ t, Py.startswith_any (scheme +:+ t) ["http://"; "https://"] = true)
  ∧ Py.remove Py.lf (Py.remove Py.cr (Py.remove Py.tab scheme)) = scheme
  ∧ (∀ t, Url.drop_scheme (scheme +:+ t) = "//" +:+ t).
Proof.
  rewrite !elem_of_cons, elem_of_nil.
  intros [->|[->|[]]]; (split; [reflexivity|]); (split; [reflexivity|]);
    (split; [intros t Ht; by apply last_char_app|]);
    repeat split; reflexivity.
Qed.

Lemma path_like_head r :
  path_like r = true →
  match r with "" => True | String d _ => Url.netloc_delim d = true end.
Proof. by destruct r. Qed.

(** The parser returns the authority of an [http] or [https] URL. *)
Lemma urlparse_netloc_authority scheme auth r :
  scheme ∈ ["http://"; "https://"] →
  Py.all_chars auth_char auth = true → path_like r = true →
  Url.urlparse_netloc (scheme +:+ auth +:+ r) = Some auth.
Proof.
  intros Hscheme Hauth Hr.
  destruct (url_scheme_facts scheme Hscheme)
    as (_ & Hfirst & _ & _ & _ & Hrem & Hdrop).
  unfold Url.urlparse_netloc.
  rewrite (lstrip_with_first _ _ "h") by done.
  rewrite !remove_app, Hrem.
  rewrite (remove_foreign auth_char Py.tab auth),
    (remove_foreign auth_char Py.cr auth),
    (remove_foreign auth_char Py.lf auth);
    try done; try (intros a Ha; by apply auth_char_facts in Ha as (_&_&?&?&?&_)).
  set (r3 := Py.remove Py.lf (Py.remove Py.cr (Py.remove Py.tab r))).
  assert (path_like r3 = true) as Hr3.
  { unfold r3. do 3 (apply path_like_remove;
      [intros d Hd; by apply delim_char_facts in Hd as (_&_&_&?&?&?)|]).
    done. }
  rewrite Hdrop.
  change ("//" +:+ auth +:+ r3) with (String "/" (String "/" (auth +:+ r3))).
  assert (Py.slice_upto 2 (String "/" (String "/" (auth +:+ r3))) = "//") as ->
    by (unfold Py.slice_upto; cbn; by destruct (auth +:+ r3)).
  cbn [String.eqb Ascii.eqb Bool.eqb Py.slice_from].
  rewrite take_until_app; [| |by apply path_like_head].
  - rewrite !(contains_foreign auth_char auth) by done. cbn [andb orb negb].
    unfold Url.checknetloc.
    rewrite (all_chars_impl auth_char Py.isascii_char auth); [|intros c Hc|done].
    + by rewrite orb_true_r.
    + by apply auth_char_facts in Hc as (_&_&_&_&_&_&?).
  - apply (all_chars_impl auth_char); [|done]. intros c Hc.
    apply auth_char_facts in Hc as (_&_&_&_&_&Hd&_). by rewrite Hd.
Qed.

(** A URL line with scheme [http] or [https], a bare host name, an
    optional numeric port and an optional path, query or fragment is
    normalised to the host name. *)
Theorem normalize_url_line scheme y port rest :
  scheme ∈ ["http://"; "https://"] →
  bare_host y → port_like port = true → path_like rest = true →
  normalize_domain (scheme +:+ y +:+ port +:+ rest) None = y.
Proof.
  intros Hscheme Hy Hport Hrest.
  pose proof (bare_host_nonempty y Hy) as Hny.
  pose proof Hy as [Hych Hylow _ _].
  destruct (url_scheme_facts scheme Hscheme)
    as (Hslow & Hfirst & Hlast & Hany3 & Hany2 & _ & _).
  set (auth := y +:+ port).
  assert (auth ≠ "") as Hna by (unfold auth; by destruct y).
  assert (Py.all_chars auth_char auth = true) as Hauth.
  { unfold auth. rewrite all_chars_app.
    rewrite (all_chars_impl host_char auth_char y); [|by intros c ->|done].
    destruct port as [|c digits]; [done|]. cbn in Hport |- *.
    apply andb_true_iff in Hport as [Hc Hd]. rewrite Hc, orb_true_r. cbn.
    apply (all_chars_impl Py.isdigit_ascii); [|done].
    intros a Ha. by apply digit_char_facts in Ha as [? _]. }
  assert (Py.all_chars not_upper auth = true) as Halow.
  { unfold auth. rewrite all_chars_app, Hylow.
    destruct port as [|c digits]; [done|]. cbn in Hport |- *.
    apply andb_true_iff in Hport as [Hc Hd]. apply Ascii.eqb_eq in Hc as ->.
    cbn. apply (all_chars_impl Py.isdigit_ascii); [|done].
    intros a Ha. by apply digit_char_facts in Ha as (_ & ? & _). }
  destruct (last_char_all_chars auth_char auth Hna Hauth) as (ca & Hla & Hca).
  apply auth_char_facts in Hca as (Hca_sp & Hca_caret & _).
  assert (last_char (scheme +:+ auth) = Some ca) as Hlsa
    by by rewrite Hlast.
  (* the line after strip and lower *)
  assert (scheme +:+ y +:+ port +:+ rest = (scheme +:+ auth) +:+ rest) as ->
    by (unfold auth; by rewrite !app_assoc_str).
  set (r1 := Py.lower (Py.rstrip_with Py.isspace rest)).
  assert (path_like r1 = true) as Hr1.
  { apply path_like_lower, path_like_rstrip; [|done].
    intros d Hd. by apply delim_char_facts in Hd as [? _]. }
  assert (Py.lower (Py.strip ((scheme +:+ auth) +:+ rest))
          = (scheme +:+ auth) +:+ r1) as Hlow.
  { unfold Py.strip, Py.strip_with.
    rewrite (lstrip_with_first _ _ "h") by (by rewrite ?app_assoc_str, ?Hfirst).
    rewrite (rstrip_with_app_last _ _ _ ca) by done.
    by rewrite !lower_app, Hslow, (lower_fixed auth). }
  set (r2 := Py.rstrip_with (Py.char_in "^") r1).
  assert (path_like r2 = true) as Hr2.
  { apply path_like_rstrip; [|done].
    intros d Hd. by apply delim_char_facts in Hd as (_ & ? & _). }
  set (d1 := (scheme +:+ auth) +:+ r1).
  set (d2 := (scheme +:+ auth) +:+ r2).
  assert (∀ r, first_char ((scheme +:+ auth) +:+ r) = Some "h"%char) as Hf
    by (intros r; by rewrite app_assoc_str, Hfirst).
  unfold normalize_domain.
  assert (Py.truthy ((scheme +:+ auth) +:+ rest) = true) as ->.
  { specialize (Hf rest). by destruct ((scheme +:+ auth) +:+ rest). }
  cbn [negb]. rewrite Hlow. fold d1.
  assert (Py.truthy d1 = true) as ->
    by (specialize (Hf r1); fold d1 in Hf; by destruct d1).
  rewrite !(startswith_first d1 "h") by (done || apply Hf).
  cbn [negb orb].
  assert (csv_step d1 None = Some d1) as -> by done.
  assert (adguard_step d1 = d1) as ->.
  { unfold adguard_step.
    by rewrite !(startswith_first d1 "h") by (done || apply Hf). }
  assert (hosts_step d1 = d1) as ->.
  { unfold hosts_step, hosts_prefixes. cbn [Py.startswith_any existsb].
    by rewrite !(startswith_first d1 "h") by (done || apply Hf). }
  assert (markers_step d1 = d2) as ->.
  { unfold markers_step, Py.lstrip_chars, Py.rstrip_chars.
    rewrite (lstrip_with_first _ d1 "h") by (done || apply Hf).
    unfold d1. rewrite (rstrip_with_app_last _ _ _ ca) by done. fold r2 d2.
    by rewrite !(lstrip_with_first _ d2 "h") by (done || apply Hf). }
  assert (protocol_step d2 = auth) as ->.
  { unfold protocol_step, d2. rewrite !app_assoc_str, Hany3, Hany2.
    by rewrite urlparse_netloc_authority. }
  assert (port_step auth = y) as ->.
  { unfold auth. destruct port as [|c digits].
    - rewrite app_empty_r. by apply bare_host_port_step.
    - cbn in Hport. apply andb_true_iff in Hport as [Hc Hd].
      apply Ascii.eqb_eq in Hc as ->.
      assert (Py.count ":" y = 0) as Hcy.
      { apply (count_all_chars host_char); [done|reflexivity]. }
      assert (Py.count ":" digits = 0) as Hcd.
      { apply (count_all_chars Py.isdigit_ascii); [done|reflexivity]. }
      unfold port_step.
      assert (Py.contains ":" (y +:+ String ":" digits) = true) as ->.
      { apply contains_iff. by exists y, digits. }
      rewrite count_app. cbn [Py.count Ascii.eqb Bool.eqb]. rewrite Hcy, Hcd.
      cbn. by rewrite split_first_field. }
  by rewrite bare_host_path_step, bare_host_final_strip.
Qed.

(** *** Comment lines and blank lines *)

Lemma lower_char_marker c :
  Ascii.eqb (Py.lower_char c) "#" = Ascii.eqb c "#"
  ∧ Ascii.eqb (Py.lower_char c) "!" = Ascii.eqb c "!"
  ∧ Ascii.eqb (Py.lower_char c) ";" = Ascii.eqb c ";".
Proof. by destruct c as [[] [] [] [] [] [] [] []]. Qed.

(** A line that is blank, or whose first character other than whitespace
    is [#], [!] or [;], is normalised to the empty string and adds nothing
    to the batch. *)
Theorem normalize_comment_or_blank line kw src :
  Py.strip line = ""
  ∨ Py.startswith_any (Py.strip line) ["#"; "!"; ";"] = true →
  normalize_domain line src = ""
  ∧ process_domains [line] kw src = (∅, ∅).
Proof.
  intros Hline.
  assert (normalize_domain line src = "") as Hn.
  { unfold normalize_domain. destruct (negb (Py.truthy line)); [done|].
    destruct Hline as [->|Hc]; [done|].
    destruct (Py.strip line) as [|c r]; [done|].
    cbn [Py.lower Py.truthy negb orb Py.startswith].
    cbn [Py.startswith_any existsb Py.startswith] in Hc.
    destruct (lower_char_marker c) as (-> & -> & ->).
    by destruct (Ascii.eqb c "#"), (Ascii.eqb c "!"), (Ascii.eqb c ";"). }
  split; [done|]. apply process_single_rejected. by rewrite Hn.
Qed.

(** *** What the normaliser never returns *)

Lemma lstrip_with_first_rejects p s c :
  first_char (Py.lstrip_with p s) = Some c → p c = false.
Proof.
  induction s as [|a s IH]; [done|]. cbn.
  destruct (p a) eqn:Ha; [done|]. cbn. by intros [= <-].
Qed.

Lemma rstrip_with_first p s c :
  first_char (Py.rstrip_with p s) = Some c → first_char s = Some c.
Proof.
  destruct s as [|a s]; [done|]. cbn.
  destruct (Py.rstrip_with p s); [|done]. by destruct (p a).
Qed.

Lemma rstrip_with_last_rejects p s c :
  last_char (Py.rstrip_with p s) = Some c → p c = false.
Proof.
  induction s as [|a s IH]; [done|]. cbn [Py.rstrip_with].
  destruct (Py.rstrip_with p s) as [|b r] eqn:Hr.
  - destruct (p a) eqn:Ha; [done|]. cbn. by intros [= <-].
  - intros Hl. by apply IH.
Qed.

Lemma strip_with_ends_reject p s :
  match first_char (Py.strip_with p s) with
  | Some c => p c = false
  | None => True
  end
  ∧ match last_char (Py.strip_with p s) with
    | Some c => p c = false
    | None => True
    end.
Proof.
  unfold Py.strip_with. split.
  - destruct (first_char _) as [c|] eqn:Hf; [|done].
    by apply rstrip_with_first, lstrip_with_first_rejects in Hf.
  - destruct (last_char _) as [c|] eqn:Hl; [|done].
    by apply rstrip_with_last_rejects in Hl.
Qed.

Lemma split_head_no_sep sep s :
  Py.all_chars (λ c, negb (Ascii.eqb c sep)) (default "" (Py.split sep s !! 0))
  = true.
Proof.
  induction s as [|a s IH]; [done|]. cbn [Py.split].
  destruct (Ascii.eqb a sep) eqn:Ha; [done|].
  destruct (Py.split sep s) as [|w ws]; cbn in IH |- *; by rewrite Ha.
Qed.

Lemma contains_char_false c s :
  Py.contains (String c "") s = false →
  Py.all_chars (λ a, negb (Ascii.eqb a c)) s = true.
Proof.
  induction s as [|a s IH]; [done|]. cbn.
  rewrite andb_true_r. intros [Ha Hs]%orb_false_iff.
  by rewrite Ha, IH.
Qed.

Lemma all_chars_not_contains c s :
  Py.all_chars (λ a, negb (Ascii.eqb a c)) s = true →
  Py.contains (String c "") s = false.
Proof.
  intros Hs. apply (contains_foreign (λ a, negb (Ascii.eqb a c))); [done|].
  cbn. by rewrite Ascii.eqb_refl.
Qed.

Lemma path_step_no_slash domain :
  Py.all_chars (λ a, negb (Ascii.eqb a "/")) (path_step domain) = true
  ∧ Py.all_chars (λ a, negb (Ascii.eqb a "?")) (path_step domain) = true.
Proof.
  unfold path_step.
  set (d1 := if Py.contains "/" domain then _ else domain).
  assert (Py.all_chars (λ a, negb (Ascii.eqb a "/")) d1 = true) as H1.
  { unfold d1. destruct (Py.contains "/" domain) eqn:Hc.
    - apply split_head_no_sep.
    - by apply contains_char_false. }
  destruct (Py.contains "?" d1) eqn:Hq.
  - split; [|apply split_head_no_sep].
    by apply all_chars_item, all_chars_split.
  - split; [done|]. by apply contains_char_false.
Qed.

(** Whatever the line and the source name, the string returned by the
    normaliser has no letter [A] to [Z], no [/] and no [?], and neither
    begins nor ends with a character of the set stripped last (dot, comma,
    quotes, brackets, blank, ...): in particular it never ends with a
    dot.  Each of these is left by a step that treats every character
    alike: [lower] for the letters, the two [split]s and the final
    [strip] for the rest. *)
Theorem normalize_output_shape line src :
  let d := normalize_domain line src in
  Py.all_chars (λ c, negb (Py.isupper_ascii c)) d = true
  ∧ Py.contains "/" d = false
  ∧ Py.contains "?" d = false
  ∧ match first_char d with
    | Some c => Py.char_in unwanted_chars c = false
    | None => True
    end
  ∧ match last_char d with
    | Some c => Py.char_in unwanted_chars c = false
    | None => True
    end
  ∧ Py.endswith d "." = false.
Proof.
  intros d.
  assert (match first_char d with
          | Some c => Py.char_in unwanted_chars c = false
          | None => True
          end
          ∧ match last_char d with
            | Some c => Py.char_in unwanted_chars c = false
            | None => True
            end
          ∧ Py.all_chars (λ a, negb (Ascii.eqb a "/")) d = true
          ∧ Py.all_chars (λ a, negb (Ascii.eqb a "?")) d = true)
    as (Hf & Hl & Hs & Hq).
  { unfold d, normalize_domain.
    destruct (negb (Py.truthy line)); [done|].
    destruct (_ || _); [done|].
    destruct (csv_step _ _) as [domain|]; [|done].
    set (d5 := port_step _).
    destruct (strip_with_ends_reject (Py.char_in unwanted_chars) (path_step d5))
      as [Hf Hl].
    destruct (path_step_no_slash d5) as [Hs Hq].
    split_and!; [done|done|by apply all_chars_strip_with..]. }
  split_and!; try done.
  - apply (all_chars_impl not_upper); [|apply normalize_domain_not_upper].
    intros c. unfold not_upper, Py.isupper.
    by destruct (Py.isupper_ascii c).
  - by apply all_chars_not_contains.
  - by apply all_chars_not_contains.
  - rewrite endswith_last. destruct (last_char d) as [c|]; [|done].
    destruct (Ascii.eqb_spec c "."); [|done]. by subst c.
Qed.

(** *** CSV rows of a PhishTank feed *)

(** Concatenations brought to right-nested form. *)
Ltac str_norm :=
  repeat first
    [ rewrite app_assoc_str
    | progress change (String ?c ?s +:+ ?t) with (String c (s +:+ t))
    | progress change (EmptyString +:+ ?t) with t ].



#[local] Abbreviation csv_char :=
  (λ c : ascii, negb (Ascii.eqb c ",") && negb (Ascii.eqb c Py.dquote)).

Lemma csv_char_lower c : csv_char c = true → csv_char (Py.lower_char c) = true.
Proof. by destruct c as [[] [] [] [] [] [] [] []]. Qed.

Lemma csv_char_facts c :
  csv_char c = true →
  Ascii.eqb c "," = false ∧ Py.char_in (String Py.dquote "") c = false.
Proof.
  destruct c as [[] [] [] [] [] [] [] []]; vm_compute; try done;
    repeat split; congruence.
Qed.

Lemma digit_line_facts c :
  Py.isdigit_ascii c = true →
  Py.isspace c = false ∧ Ascii.eqb c "#" = false ∧ Ascii.eqb c "!" = false
  ∧ Ascii.eqb c ";" = false ∧ Ascii.eqb c "," = false.
Proof.
  destruct c as [[] [] [] [] [] [] [] []]; vm_compute; try done;
    repeat split; congruence.
Qed.

Lemma all_chars_lower_csv s :
  Py.all_chars csv_char s = true → Py.all_chars csv_char (Py.lower s) = true.
Proof.
  induction s as [|c s IH]; [done|]. cbn [Py.lower Py.all_chars].
  intros [Hc Hs]%andb_true_iff. by rewrite (csv_char_lower c Hc), IH.
Qed.

Lemma split_cons_field sep s t :
  Py.count sep s = 0 →
  Py.split sep (s +:+ String sep t) = s :: Py.split sep t.
Proof.
  induction s as [|a s IH]; intros Hs.
  - change ("" +:+ String sep t) with (String sep t). cbn.
    by rewrite Ascii.eqb_refl.
  - change (String a s +:+ String sep t) with (String a (s +:+ String sep t)).
    cbn in Hs |- *. destruct (Ascii.eqb a sep); [done|]. by rewrite IH.
Qed.

Lemma split_no_sep sep s : Py.count sep s = 0 → Py.split sep s = [s].
Proof.
  induction s as [|a s IH]; intros Hs; [done|].
  cbn in Hs |- *. destruct (Ascii.eqb a sep); [done|]. by rewrite IH.
Qed.

Lemma split_head_field sep f t :
  Py.count sep f = 0 →
  match t with "" => True | String c _ => c = sep end →
  Py.split sep (f +:+ t) !! 0 = Some f
  ∧ 1 ≤ length (Py.split sep (f +:+ t)).
Proof.
  intros Hf Ht. destruct t as [|c t].
  - rewrite app_empty_r, split_no_sep by done. by split.
  - subst c. rewrite split_cons_field by done. cbn. split; [done|lia].
Qed.

Lemma count_foreign q c s :
  Py.all_chars q s = true → q c = false → Py.count c s = 0.
Proof. apply count_all_chars. Qed.

(** A row of a PhishTank CSV export, read with a source name that contains
    [phishtank]: the host of the quoted URL in the second field is what
    the normaliser returns (or nothing when it starts with a hosts-file
    token). *)
Theorem normalize_phishtank_csv_row name id scheme y path tail :
  Py.contains "phishtank" name = true →
  id ≠ "" → Py.all_chars Py.isdigit_ascii id = true →
  scheme ∈ ["http://"; "https://"] → bare_host y →
  csv_safe path = true → tail_like tail = true →
  normalize_domain
    (id +:+ "," +:+ String Py.dquote (scheme +:+ y +:+ path)
        +:+ String Py.dquote tail)
    (Some name)
  = if Py.startswith_any y hosts_prefixes then "" else y.
Proof.
  intros Hname Hnid Hid Hscheme Hy Hpath Htail.
  pose proof (bare_host_nonempty y Hy) as Hny.
  pose proof Hy as [Hych Hylow _ (cl & Hl & Hal)].
  destruct (url_scheme_facts scheme Hscheme)
    as (Hslow & Hfirst & Hlast & _ & _ & _ & _).
  apply andb_true_iff in Hpath as [Hplike Hpcsv].
  set (path1 := Py.lower path).
  assert (path_like path1 = true) as Hp1 by by apply path_like_lower.
  assert (Py.all_chars csv_char path1 = true) as Hp1c
    by by apply all_chars_lower_csv.
  set (tail1 := Py.lower (Py.rstrip_with Py.isspace tail)).
  assert (match tail1 with "" => True | String c _ => c = ","%char end) as Ht1.
  { unfold tail1. destruct tail as [|c tail]; [done|].
    cbn in Htail. apply Ascii.eqb_eq in Htail as ->.
    by rewrite rstrip_with_keep. }
  set (url1 := scheme +:+ y +:+ path1).
  set (field1 := String Py.dquote (url1 +:+ String Py.dquote "")).
  set (d1 := id +:+ String "," (field1 +:+ tail1)).
  destruct id as [|c0 id']; [done|]. set (id := String c0 id') in *.
  assert (Py.isdigit_ascii c0 = true) as Hc0
    by (cbn in Hid; by apply andb_true_iff in Hid as [? _]).
  destruct (digit_line_facts c0 Hc0) as (Hsp0 & Hh & Hb & Hs & _).
  assert (Py.all_chars not_upper id = true) as Hidlow.
  { apply (all_chars_impl Py.isdigit_ascii); [|done]. intros c Hc.
    by apply digit_char_facts in Hc as (_ & ? & _). }
  assert (Py.count "," id = 0) as Hidc.
  { apply (count_foreign Py.isdigit_ascii); done. }
  (* strip and lower *)
  assert (Py.lower (Py.strip
            (id +:+ "," +:+ String Py.dquote (scheme +:+ y +:+ path)
                +:+ String Py.dquote tail)) = d1) as Hlow.
  { set (pre := id +:+ "," +:+ String Py.dquote (scheme +:+ y +:+ path)).
    assert (id +:+ "," +:+ String Py.dquote (scheme +:+ y +:+ path)
               +:+ String Py.dquote tail
            = (pre +:+ String Py.dquote "") +:+ tail) as ->
      by (unfold pre; str_norm; reflexivity).
    unfold Py.strip, Py.strip_with.
    rewrite (lstrip_with_first _ _ c0) by done.
    rewrite (rstrip_with_app_last _ _ _ Py.dquote)
      by (done || by rewrite last_char_app).
    unfold pre, d1, field1, url1, tail1, path1. str_norm.
    rewrite lower_app. cbn [Py.lower]. rewrite !lower_app. cbn [Py.lower].
    rewrite Hslow, (lower_fixed id), (lower_fixed y) by done.
    reflexivity. }
  assert (first_char d1 = Some c0) as Hf1 by done.
  unfold normalize_domain. cbn [Py.truthy negb]. rewrite Hlow.
  assert (Py.truthy d1 = true) as -> by done.
  rewrite !(startswith_first d1 c0) by done. cbn [negb orb].
  (* the CSV step *)
  assert (Py.all_chars csv_char url1 = true) as Hurlc.
  { unfold url1. rewrite !all_chars_app, Hp1c.
    rewrite (all_chars_impl host_char csv_char y); [|intros c Hc|done].
    - revert Hscheme. rewrite !elem_of_cons, elem_of_nil.
      by intros [->|[->|[]]].
    - by destruct c as [[] [] [] [] [] [] [] []]. }
  assert (Py.count "," field1 = 0) as Hfc.
  { unfold field1. cbn [Py.count Ascii.eqb Bool.eqb]. rewrite count_app.
    rewrite (count_foreign csv_char "," url1) by done. done. }
  assert (csv_step d1 (Some name) = Some y) as ->.
  { unfold csv_step.
    assert (Py.truthy name = true) as -> by by destruct name.
    rewrite Hname.
    assert (Py.contains "," d1 = true) as ->.
    { apply contains_iff. by exists id, (field1 +:+ tail1). }
    cbn [andb]. unfold d1. rewrite split_cons_field by done.
    destruct (split_head_field "," field1 tail1 Hfc Ht1) as [Hhead Hlen].
    set (fields := Py.split "," (field1 +:+ tail1)) in *.
    assert ((1 <? length (id :: fields)) = true) as ->
      by (apply Nat.ltb_lt; cbn; lia).
    change ((id :: fields) !! 1) with (fields !! 0).
    rewrite Hhead. change (default "" (Some field1)) with field1.
    assert (Py.strip_chars (String Py.dquote "") field1 = url1) as ->.
    { unfold Py.strip_chars, Py.strip_with, field1.
      assert (first_char (url1 +:+ String Py.dquote "") = Some "h"%char) as Hfu
        by (unfold url1; by rewrite !app_assoc_str, Hfirst).
      assert (Py.lstrip_with (Py.char_in (String Py.dquote ""))
                (String Py.dquote (url1 +:+ String Py.dquote ""))
              = url1 +:+ String Py.dquote "") as ->.
      { cbn [Py.lstrip_with Py.char_in Ascii.eqb Bool.eqb orb].
        by apply (lstrip_with_first _ _ "h"). }
      rewrite rstrip_with_app_all by done.
      assert (url1 ≠ "") as Hnu
        by (intros Hu; by rewrite Hu in Hfu).
      destruct (last_char_all_chars csv_char url1 Hnu Hurlc) as (cu & Hlu & Hcu).
      apply csv_char_facts in Hcu as [_ Hcu].
      by apply (rstrip_with_last _ _ cu). }
    assert (Py.startswith url1 "http" = true) as ->.
    { unfold url1. revert Hscheme. rewrite !elem_of_cons, elem_of_nil.
      by intros [->|[->|[]]]. }
    unfold url1. apply urlparse_netloc_authority; [done| |done].
    apply (all_chars_impl host_char); [|done]. by intros c ->. }
  rewrite bare_host_adguard_step, bare_host_hosts_step by done.
  destruct (Py.startswith_any y hosts_prefixes); [reflexivity|].
  by apply bare_host_tail_steps.
Qed.

End LineFormats.

(** ** The corpus file: loading, saving, building *)

Section CorpusFile.

Context `{UrlChecks}.

Implicit Types (s t cur line name : string) (lines : list string).

#[local] Abbreviation line_char :=
  (λ c : ascii, negb (Ascii.eqb c Py.cr) && negb (Ascii.eqb c Py.lf)).
#[local] Abbreviation eol := (String Py.lf "").

Lemma rev_onto_eq s acc : Py.rev_onto s acc = Py.rev s +:+ acc.
Proof.
  unfold Py.rev. revert acc. induction s as [|c s IH]; intros acc; [done|].
  cbn. rewrite (IH (String c "")), IH. by rewrite app_assoc_str.
Qed.

Lemma universal_newlines_line line rest :
  one_line line = true →
  TextFile.universal_newlines (line +:+ String Py.lf rest)
  = line +:+ String Py.lf (TextFile.universal_newlines rest).
Proof.
  unfold one_line. induction line as [|c line IH]; intros Hl.
  - done.
  - change (String c line +:+ String Py.lf rest)
      with (String c (line +:+ String Py.lf rest)).
    cbn in Hl. apply andb_true_iff in Hl as [Hc Hl].
    apply andb_true_iff in Hc as [Hc _]. apply negb_true_iff in Hc.
    cbn [TextFile.universal_newlines]. rewrite Hc. by rewrite IH.
Qed.

Lemma lines_go_line line : ∀ cur rest,
  one_line line = true →
  TextFile.lines_go cur (line +:+ String Py.lf rest)
  = (Py.rev cur +:+ line +:+ eol) :: TextFile.lines_go "" rest.
Proof.
  unfold one_line. induction line as [|c line IH]; intros cur rest Hl.
  - change ("" +:+ String Py.lf rest) with (String Py.lf rest).
    cbn [TextFile.lines_go Ascii.eqb Bool.eqb]. f_equal.
    unfold Py.rev at 1. cbn [Py.rev_onto]. by rewrite rev_onto_eq.
  - change (String c line +:+ String Py.lf rest)
      with (String c (line +:+ String Py.lf rest)).
    cbn in Hl. apply andb_true_iff in Hl as [Hc Hl].
    apply andb_true_iff in Hc as [_ Hc]. apply negb_true_iff in Hc.
    cbn [TextFile.lines_go]. rewrite Hc, IH by done. f_equal.
    unfold Py.rev at 1. cbn [Py.rev_onto]. rewrite rev_onto_eq.
    by rewrite !app_assoc_str.
Qed.

(** A file written line by line is read back line by line. *)
Lemma readlines_write_lines lines :
  Forall (λ l, one_line l = true) lines →
  TextFile.readlines (write_lines lines) = (λ l, l +:+ eol) <$> lines.
Proof.
  unfold TextFile.readlines. induction 1 as [|l lines Hl Hls IH]; [done|].
  cbn [write_lines fmap list_fmap]. rewrite app_assoc_str.
  change (eol +:+ write_lines lines) with (String Py.lf (write_lines lines)).
  rewrite universal_newlines_line, lines_go_line by done.
  by rewrite IH.
Qed.

Lemma write_lines_app lines1 lines2 :
  write_lines (lines1 ++ lines2) = write_lines lines1 +:+ write_lines lines2.
Proof.
  induction lines1 as [|l lines1 IH]; [done|].
  cbn [write_lines app]. by rewrite IH, !app_assoc_str.
Qed.

Lemma lstrip_with_app p s t :
  Py.lstrip_with p (s +:+ t)
  = if Py.all_chars p s then Py.lstrip_with p t else Py.lstrip_with p s +:+ t.
Proof.
  induction s as [|c s IH]; [done|].
  change (String c s +:+ t) with (String c (s +:+ t)). cbn.
  destruct (p c); [done|]. done.
Qed.

Lemma lstrip_with_all p s : Py.all_chars p s = true → Py.lstrip_with p s = "".
Proof.
  induction s as [|c s IH]; [done|]. cbn.
  intros [Hc Hs]%andb_true_iff. by rewrite Hc, IH.
Qed.

(** Trailing whitespace does not change [s.strip()]. *)
Lemma strip_app_spaces s t :
  Py.all_chars Py.isspace t = true → Py.strip (s +:+ t) = Py.strip s.
Proof.
  intros Ht. unfold Py.strip, Py.strip_with. rewrite lstrip_with_app.
  destruct (Py.all_chars Py.isspace s) eqn:Hs.
  - by rewrite lstrip_with_all, lstrip_with_all.
  - by rewrite rstrip_with_app_all.
Qed.

Lemma load_write_lines lines :
  Forall (λ l, one_line l = true) lines →
  load_existing_domains (Text (write_lines lines)) = entries lines.
Proof.
  intros Hl. unfold load_existing_domains, entries.
  rewrite readlines_write_lines by done. do 2 f_equal.
  rewrite <- list_fmap_compose. apply list_fmap_ext. intros _ l _.
  cbn. by apply strip_app_spaces.
Qed.

Lemma elem_of_entries d lines :
  d ∈ entries lines ↔ ∃ l, l ∈ lines ∧ d = Py.strip l ∧ d ≠ "".
Proof.
  unfold entries.
  rewrite elem_of_list_to_set, list_elem_of_In, filter_In, <- list_elem_of_In.
  rewrite list_elem_of_fmap. split.
  - intros [(l & -> & Hl) Ht]. exists l. split_and!; [done..|].
    intros Heq. by rewrite Heq in Ht.
  - intros (l & Hl & -> & Hne). split; [by exists l|]. by destruct (Py.strip l).
Qed.

Lemma universal_newlines_no_cr_aux s :
  Py.all_chars (λ c, negb (Ascii.eqb c Py.cr)) (TextFile.universal_newlines s)
  = true
  ∧ ∀ c, Py.all_chars (λ c, negb (Ascii.eqb c Py.cr))
           (TextFile.universal_newlines (String c s)) = true.
Proof.
  induction s as [|a s [IH1 IH2]].
  - split; [done|]. intros c. cbn. by destruct (Ascii.eqb c Py.cr) eqn:Hc; cbn; rewrite ?Hc.
  - split; [apply IH2|]. intros c.
    cbn [TextFile.universal_newlines].
    destruct (Ascii.eqb c Py.cr) eqn:Hc.
    + destruct (Ascii.eqb a Py.lf); cbn [Py.all_chars]; [by rewrite IH1|].
      pose proof (IH2 a) as Ha. cbn [TextFile.universal_newlines] in Ha.
      by rewrite Ha.
    + cbn [Py.all_chars]. rewrite Hc. cbn [negb andb]. apply IH2.
Qed.

Lemma lines_go_bodies s : ∀ cur,
  Py.all_chars (λ c, negb (Ascii.eqb c Py.cr)) s = true →
  one_line cur = true →
  Forall (λ l, ∃ body, (l = body +:+ eol ∨ l = body) ∧ one_line body = true)
    (TextFile.lines_go cur s).
Proof.
  induction s as [|c s IH]; intros cur Hs Hcur; cbn [TextFile.lines_go].
  - destruct cur as [|a cur]; cbn [Py.flush]; [done|].
    constructor; [|done]. exists (Py.rev (String a cur)). split; [by right|].
    by apply all_chars_rev_onto.
  - cbn in Hs. apply andb_true_iff in Hs as [Hc Hs].
    destruct (Ascii.eqb c Py.lf) eqn:Hlf.
    + apply Ascii.eqb_eq in Hlf as ->. constructor; [|by apply IH].
      exists (Py.rev cur). split; [|by apply all_chars_rev_onto].
      left. unfold Py.rev at 1. cbn [Py.rev_onto]. apply rev_onto_eq.
    + apply IH; [done|]. unfold one_line. cbn. by rewrite Hc, Hlf.
Qed.

Lemma strip_idempotent s : Py.strip (Py.strip s) = Py.strip s.
Proof.
  unfold Py.strip.
  destruct (strip_with_ends_reject Py.isspace s) as [Hf Hl].
  destruct (Py.strip_with Py.isspace s) as [|c r] eqn:Hr; [done|].
  destruct (last_char_is_Some c r) as [cl Hcl]. rewrite Hcl in Hl.
  by apply (strip_with_ends _ _ c cl).
Qed.

Lemma strip_no_space s :
  Py.all_chars (λ c, negb (Py.isspace c)) s = true → Py.strip s = s.
Proof.
  intros Hs. destruct s as [|c r] eqn:Heq; [done|]. rewrite <- Heq in *.
  destruct (last_char_all_chars _ s ltac:(by subst) Hs) as (cl & Hl & Hcl).
  apply negb_true_iff in Hcl.
  assert (Py.isspace c = false) as Hc.
  { subst s. cbn in Hs. apply andb_true_iff in Hs as [Hc _].
    by apply negb_true_iff in Hc. }
  apply (strip_with_ends _ _ c cl); by subst.
Qed.

Lemma load_elements_clean file d :
  d ∈ load_existing_domains file →
  d ≠ "" ∧ Py.strip d = d ∧ one_line d = true.
Proof.
  destruct file as [| |content]; cbn [load_existing_domains];
    [by intros ?%elem_of_empty..|].
  fold (entries (TextFile.readlines content)).
  intros (l & Hl & -> & Hne)%elem_of_entries.
  pose proof (proj1 (universal_newlines_no_cr_aux content)) as Hcr.
  pose proof (lines_go_bodies _ "" Hcr eq_refl) as Hb.
  rewrite Forall_forall in Hb. destruct (Hb l Hl) as (body & Hbody & Hone).
  assert (Py.strip l = Py.strip body) as Heq.
  { destruct Hbody as [-> | ->]; [|done]. by apply strip_app_spaces. }
  split_and!; [done|apply strip_idempotent|].
  rewrite Heq. by apply all_chars_strip_with.
Qed.

(** What is loaded from a file are stripped, non-empty, one-line strings;
    a missing or unreadable file gives the empty corpus. *)
Theorem load_existing_domains_elements file d :
  (d ∈ load_existing_domains file →
   d ≠ "" ∧ Py.strip d = d ∧ one_line d = true)
  ∧ load_existing_domains Missing = ∅
  ∧ load_existing_domains Unreadable = ∅.
Proof. split_and!; [apply load_elements_clean|done..]. Qed.

Lemma entries_app lines1 lines2 :
  entries (lines1 ++ lines2) = entries lines1 ∪ entries lines2.
Proof.
  apply set_eq. intros d. rewrite elem_of_union, !elem_of_entries. split.
  - intros (l & [Hl|Hl]%elem_of_app & Hd); [left|right]; by exists l.
  - intros [(l & Hl & Hd)|(l & Hl & Hd)]; exists l;
      (split; [apply elem_of_app; auto|done]).
Qed.

Lemma entries_clean lines :
  Forall (λ d, d ≠ "" ∧ Py.strip d = d) lines → entries lines = list_to_set lines.
Proof.
  intros Hl. rewrite Forall_forall in Hl. apply set_eq. intros d.
  rewrite elem_of_entries, elem_of_list_to_set. split.
  - intros (l & Hin & -> & _). by rewrite (proj2 (Hl l Hin)).
  - intros Hin. destruct (Hl d Hin) as [Hne Hs]. by exists d.
Qed.

Lemma one_line_header name :
  one_line name = true →
  Forall (λ l, one_line l = true) (header_lines name).
Proof.
  intros Hn. unfold header_lines. repeat constructor.
  unfold one_line. by rewrite all_chars_app.
Qed.

Lemma header_entries name :
  entries (header_lines name)
  = list_to_set
      [ "/**"; "Lyra - Mapping the universe of threats";
        Py.strip ("Category: " +:+ name);
        "Website: https://blog.intellibron.io/"; "Copyright 2025 ITSEC R&D";
        "**/" ].
Proof.
  unfold entries, header_lines. cbn [fmap list_fmap List.filter].
  change (Py.strip "/**") with "/**".
  change (Py.strip "Lyra - Mapping the universe of threats")
    with "Lyra - Mapping the universe of threats".
  change (Py.strip "Website: https://blog.intellibron.io/")
    with "Website: https://blog.intellibron.io/".
  change (Py.strip "Copyright 2025 ITSEC R&D") with "Copyright 2025 ITSEC R&D".
  change (Py.strip "**/") with "**/". change (Py.strip "") with "".
  cbn [Py.truthy].
  assert (Py.truthy (Py.strip ("Category: " +:+ name)) = true) as ->; [|done].
  unfold Py.strip, Py.strip_with.
  change (Py.lstrip_with Py.isspace ("Category: " +:+ name))
    with ("Category: " +:+ name).
  change ("Category: " +:+ name) with (String "C" ("ategory: " +:+ name)).
  by rewrite rstrip_with_keep.
Qed.

Lemma load_save_domains name domains_list :
  one_line name = true →
  Forall (λ d, d ≠ "" ∧ Py.strip d = d ∧ one_line d = true) domains_list →
  load_existing_domains (Text (save_domains name domains_list))
  = list_to_set domains_list ∪ entries (header_lines name).
Proof.
  intros Hname Hl.
  unfold save_domains. rewrite <- write_lines_app, load_write_lines.
  - rewrite entries_app, (entries_clean domains_list).
    + apply (comm_L (∪)).
    + eapply Forall_impl; [done|]. by intros d (? & ? & ?).
  - apply Forall_app. split; [by apply one_line_header|].
    eapply Forall_impl; [done|]. by intros d (? & ? & ?).
Qed.

Lemma header_line_in_entries name h :
  h ∈ [ "/**"; "Lyra - Mapping the universe of threats";
        "Website: https://blog.intellibron.io/"; "Copyright 2025 ITSEC R&D";
        "**/" ] →
  h ∈ entries (header_lines name).
Proof.
  rewrite header_entries, elem_of_list_to_set, !elem_of_cons, elem_of_nil.
  intros [->|[->|[->|[->|[->|[]]]]]]; auto 10.
Qed.

(** Saving and loading again: the domains come back, and so do the lines
    of the header, as further entries of the corpus. *)
Theorem save_then_load name domains_list :
  one_line name = true →
  Forall (λ d, d ≠ "" ∧ Py.strip d = d ∧ one_line d = true) domains_list →
  load_existing_domains (Text (save_domains name domains_list))
  = list_to_set domains_list ∪ entries (header_lines name)
  ∧ entries (header_lines name)
    = list_to_set
        [ "/**"; "Lyra - Mapping the universe of threats";
          Py.strip ("Category: " +:+ name);
          "Website: https://blog.intellibron.io/"; "Copyright 2025 ITSEC R&D";
          "**/" ].
Proof.
  intros Hname Hl. split; [by apply load_save_domains|apply header_entries].
Qed.

(** *** One run of [build_blocklist] *)

Lemma normalize_domain_last_char line src :
  match last_char (normalize_domain line src) with
  | Some c => Py.char_in unwanted_chars c = false
  | None => True
  end.
Proof.
  unfold normalize_domain.
  destruct (negb (Py.truthy line)); [done|].
  destruct (_ || _); [done|].
  destruct (csv_step _ _) as [domain|]; [|done].
  apply strip_with_ends_reject.
Qed.

(** An accepted domain is a plain [label.tld]: host characters only. *)
Lemma accepted_domain_clean line src d :
  normalize_domain line src = d → is_valid_domain d = true →
  Py.all_chars host_char d = true
  ∧ d ≠ "" ∧ Py.strip d = d ∧ one_line d = true.
Proof.
  intros Hn (label & tld & tail & Hd & Hlab & Hlen & _ & _ & Htld & _ & Htail)
    %is_valid_domain_shape.
  pose proof (normalize_domain_last_char line src) as Hlast.
  rewrite Hn, Hd in Hlast.
  assert (tail = "") as ->.
  { destruct Htail as [-> | ->]; [done|].
    change (String "." (tld +:+ eol)) with (String "." tld +:+ eol) in Hlast.
    rewrite <- app_assoc_str, last_char_app in Hlast by done. done. }
  rewrite app_empty_r in Hd.
  assert (Py.all_chars host_char d = true) as Hhost.
  { rewrite Hd, all_chars_app. cbn [Py.all_chars].
    rewrite (all_chars_impl _ _ _ label_char_host Hlab).
    by rewrite (all_chars_impl _ _ _ alpha_char_host Htld). }
  split_and!; [done| | |].
  - rewrite Hd. destruct label; [cbn in Hlen; lia|done].
  - apply strip_no_space. apply (all_chars_impl host_char); [|done].
    apply host_char_no_space.
  - apply (all_chars_impl host_char); [|done]. intros c Hc.
    apply host_char_facts in Hc as (_ & _ & _ & _ & -> & -> & _). done.
Qed.

Lemma build_blocklist_eq name kw file raw :
  build_blocklist name kw file raw
  = let existing := load_existing_domains file in
    let batch := process_domains raw (Some kw) None in
    let merged := merge_domains existing batch.1 (Some batch.2) in
    (save_domains name merged.1, merged.2).
Proof.
  unfold build_blocklist. by destruct (process_domains raw (Some kw) None).
Qed.

Lemma build_final_clean kw file raw :
  Forall (λ d, d ≠ "" ∧ Py.strip d = d ∧ one_line d = true)
    (merge_domains (load_existing_domains file)
       (process_domains raw (Some kw) None).1
       (Some (process_domains raw (Some kw) None).2)).1.
Proof.
  apply Forall_forall. intros d [Hd|Hd]%elem_of_merge_final.
  - by apply (load_elements_clean file).
  - unfold process_domains in Hd.
    apply process_fold_normalized in Hd as [Hd|(line & _ & Hn & _ & Hv)];
      [by apply elem_of_empty in Hd|].
    by apply (accepted_domain_clean line None d) in Hv as (_ & ? & ? & ?).
Qed.

Lemma load_after_build name kw file raw :
  one_line name = true →
  load_existing_domains (Text (build_blocklist name kw file raw).1)
  = load_existing_domains file
    ∪ (process_domains raw (Some kw) None).1
    ∪ entries (header_lines name).
Proof.
  intros Hname. rewrite build_blocklist_eq. cbn zeta. cbn [fst].
  rewrite load_save_domains; [|done|apply build_final_clean].
  by rewrite list_to_set_merge_final.
Qed.

(** A run never loses a stored entry and stores every accepted domain:
    the corpus read back from the file written by [build_blocklist] is the
    corpus read before, the accepted domains of the batch, and the lines of
    the header; [total_count] counts the domain lines written. *)
Theorem build_blocklist_corpus name kw file raw :
  one_line name = true →
  let text := (build_blocklist name kw file raw).1 in
  let stats := (build_blocklist name kw file raw).2 in
  let accepted := (process_domains raw (Some kw) None).1 in
  load_existing_domains (Text text)
  = load_existing_domains file ∪ accepted ∪ entries (header_lines name)
  ∧ load_existing_domains file ⊆ load_existing_domains (Text text)
  ∧ accepted ⊆ load_existing_domains (Text text)
  ∧ total_count stats = size (load_existing_domains file ∪ accepted)
  ∧ priority_count stats = 0.
Proof.
  intros Hname text stats accepted.
  pose proof (load_after_build name kw file raw Hname) as Heq.
  fold text accepted in Heq. split_and!.
  - done.
  - rewrite Heq. intros d Hd. by apply elem_of_union_l, elem_of_union_l.
  - rewrite Heq. intros d Hd. by apply elem_of_union_l, elem_of_union_r.
  - unfold stats. by rewrite build_blocklist_eq.
  - unfold stats. by rewrite build_blocklist_eq.
Qed.

(** The header written by one run is read by the next run as domains:
    whatever the next batch is, the next merge lists the lines of the
    header among its domains, although [is_valid_domain] accepts none of
    them. *)
Theorem header_lines_become_domains name kw file raw incoming priority h :
  one_line name = true →
  h ∈ [ "/**"; "Lyra - Mapping the universe of threats";
        "Website: https://blog.intellibron.io/"; "Copyright 2025 ITSEC R&D";
        "**/" ] →
  let text := (build_blocklist name kw file raw).1 in
  h ∈ (merge_domains (load_existing_domains (Text text)) incoming priority).1
  ∧ is_valid_domain h = false.
Proof.
  intros Hname Hh text. split.
  - apply elem_of_merge_final. left. unfold text.
    rewrite load_after_build by done.
    by apply elem_of_union_r, header_line_in_entries.
  - revert Hh. rewrite !elem_of_cons, elem_of_nil.
    by intros [->|[->|[->|[->|[->|[]]]]]].
Qed.

End CorpusFile.

(** ** The form of an accepted domain *)

Section AcceptedForm.

Context `{UrlChecks}.

(** A domain of the normalized set is a lower-case [label.tld] and nothing
    more: host characters only, exactly one dot, a letter or digit first
    and a letter last, and not the trailing newline that [is_valid_domain]
    alone lets pass. *)
Theorem process_accepted_form raw kw src d :
  d ∈ (process_domains raw kw src).1 →
  bare_host d ∧ Py.count "." d = 1 ∧ one_line d = true
  ∧ Py.strip d = d ∧ 4 ≤ String.length d.
Proof.
  unfold process_domains. rewrite process_fold_normalized. cbn [fst].
  intros [Hd|(line & _ & Hn & Ht & Hv)]; [by apply elem_of_empty in Hd|].
  pose proof (normalize_domain_not_upper line src) as Hlow. rewrite Hn in Hlow.
  destruct (accepted_domain_clean line src d Hn Hv) as (Hhost & Hne & Hs & Hone).
  destruct (valid_lower_bare_host d Hv (lower_fixed d Hlow))
    as (y & tail & Hd & Hy & Htail).
  pose proof (normalize_domain_last_char line src) as Hlast. rewrite Hn in Hlast.
  assert (tail = "") as ->.
  { destruct Htail as [-> | ->]; [done|].
    rewrite Hd, last_char_app in Hlast by done. done. }
  rewrite app_empty_r in Hd. subst y.
  split_and!; try done.
  - by apply is_valid_domain_one_dot.
  - apply is_valid_domain_shape in Hv
      as (label & tld & tail & -> & _ & [Hl _] & _ & _ & _ & Hl2 & _).
    rewrite length_app_str. cbn [String.length]. rewrite length_app_str. lia.
Qed.

End AcceptedForm.

(** ** Instances of the further properties *)

Section Instances.

#[local] Existing Instance lenient_checks.

#[local] Ltac bare_host_tac :=
  split; [reflexivity | reflexivity
         | eexists; split; reflexivity | eexists; split; reflexivity].

#[local] Ltac in_list_tac := rewrite !elem_of_cons; auto 10.

Lemma process_batch_as_set_witness :
  (∀ line, line ∈ ["a.com"; "b.org"] ↔ line ∈ ["b.org"; "a.com"; "a.com"])
  ∧ process_domains ["a.com"; "b.org"] None None
    = process_domains ["b.org"; "a.com"; "a.com"] None None.
Proof.
  assert (∀ line, line ∈ ["a.com"; "b.org"] ↔ line ∈ ["b.org"; "a.com"; "a.com"])
    as Hsame by (intros line; rewrite !elem_of_cons, elem_of_nil; tauto).
  split; [exact Hsame|].
  exact (proj1 (process_batch_as_set _ _ None None) Hsame).
Defined.

Lemma normalize_hosts_file_line_witness :
  "0.0.0.0" ∈ hosts_prefixes ∧ " " ≠ "" ∧ Py.all_chars Py.isspace " " = true
  ∧ bare_host "ads.example.com"
  ∧ normalize_domain ("0.0.0.0" +:+ " " +:+ "ads.example.com") None
    = "ads.example.com".
Proof.
  assert ("0.0.0.0" ∈ hosts_prefixes) as H1 by (unfold hosts_prefixes; in_list_tac).
  assert (bare_host "ads.example.com") as H2 by bare_host_tac.
  split_and!; [done..|].
  by apply normalize_hosts_file_line.
Defined.

Lemma normalize_adguard_rule_witness :
  bare_host "tracker.example.net"
  ∧ normalize_domain ("||" +:+ "tracker.example.net" +:+ "^") None
    = "tracker.example.net".
Proof.
  assert (bare_host "tracker.example.net") as H1 by bare_host_tac.
  split; [done|].
  exact (proj1 (normalize_adguard_rule "tracker.example.net" None H1)).
Defined.

Lemma normalize_url_line_witness :
  "https://" ∈ ["http://"; "https://"] ∧ bare_host "bad-site.com"
  ∧ port_like ":8080" = true ∧ path_like "/Path?x=1" = true
  ∧ normalize_domain ("https://" +:+ "bad-site.com" +:+ ":8080" +:+ "/Path?x=1")
      None
    = "bad-site.com".
Proof.
  assert ("https://" ∈ ["http://"; "https://"]) as H1 by in_list_tac.
  assert (bare_host "bad-site.com") as H2 by bare_host_tac.
  split_and!; [done..|].
  by apply normalize_url_line.
Defined.

Lemma normalize_phishtank_csv_row_witness :
  Py.contains "phishtank" "phishtank_feed" = true
  ∧ "1234" ≠ "" ∧ Py.all_chars Py.isdigit_ascii "1234" = true
  ∧ "http://" ∈ ["http://"; "https://"] ∧ bare_host "phish.example.org"
  ∧ csv_safe "/Login" = true ∧ tail_like ",x,y" = true
  ∧ normalize_domain
      ("1234" +:+ "," +:+ String Py.dquote ("http://" +:+ "phish.example.org" +:+ "/Login")
         +:+ String Py.dquote ",x,y")
      (Some "phishtank_feed")
    = "phish.example.org".
Proof.
  assert ("http://" ∈ ["http://"; "https://"]) as H1 by in_list_tac.
  assert (bare_host "phish.example.org") as H2 by bare_host_tac.
  split_and!; [done..|].
  by apply (normalize_phishtank_csv_row "phishtank_feed" "1234" "http://"
              "phish.example.org" "/Login" ",x,y").
Defined.

Lemma normalize_comment_or_blank_witness :
  (Py.strip "  # ads" = ""
   ∨ Py.startswith_any (Py.strip "  # ads") ["#"; "!"; ";"] = true)
  ∧ normalize_domain "  # ads" None = "".
Proof.
  assert (Py.strip "  # ads" = ""
          ∨ Py.startswith_any (Py.strip "  # ads") ["#"; "!"; ";"] = true)
    as H1 by (right; reflexivity).
  split; [exact H1|].
  exact (proj1 (normalize_comment_or_blank "  # ads" None None H1)).
Defined.

Lemma load_existing_domains_elements_witness :
  "b.org" ∈ load_existing_domains (Text ("a.com" +:+ String Py.lf " b.org "))
  ∧ "b.org" ≠ "" ∧ Py.strip "b.org" = "b.org" ∧ one_line "b.org" = true.
Proof.
  assert ("b.org"
          ∈ load_existing_domains (Text ("a.com" +:+ String Py.lf " b.org ")))
    as H1.
  { apply elem_of_list_to_set, list_elem_of_In. vm_compute. auto. }
  split; [exact H1|].
  exact (proj1 (load_existing_domains_elements _ _) H1).
Defined.

Lemma save_then_load_witness :
  one_line "Adult" = true
  ∧ Forall (λ d, d ≠ "" ∧ Py.strip d = d ∧ one_line d = true) ["a.com"; "b.org"]
  ∧ load_existing_domains (Text (save_domains "Adult" ["a.com"; "b.org"]))
    = list_to_set ["a.com"; "b.org"] ∪ entries (header_lines "Adult").
Proof.
  assert (Forall (λ d, d ≠ "" ∧ Py.strip d = d ∧ one_line d = true)
            ["a.com"; "b.org"]) as H1 by (repeat constructor; done).
  split_and!; [done..|].
  exact (proj1 (save_then_load "Adult" ["a.com"; "b.org"] eq_refl H1)).
Defined.

Lemma build_blocklist_corpus_witness :
  one_line "Adult" = true
  ∧ load_existing_domains (Text "a.com")
    ⊆ load_existing_domains
        (Text (build_blocklist "Adult" ["bet"] (Text "a.com") ["B.org"]).1).
Proof.
  split; [reflexivity|].
  exact (proj1 (proj2
    (build_blocklist_corpus "Adult" ["bet"] (Text "a.com") ["B.org"] eq_refl))).
Defined.

Lemma header_lines_become_domains_witness :
  one_line "Adult" = true
  ∧ "/**" ∈ [ "/**"; "Lyra - Mapping the universe of threats";
              "Website: https://blog.intellibron.io/";
              "Copyright 2025 ITSEC R&D"; "**/" ]
  ∧ "/**" ∈ (merge_domains
               (load_existing_domains
                  (Text (build_blocklist "Adult" [] Missing ["a.com"]).1))
               ∅ None).1.
Proof.
  assert ("/**" ∈ [ "/**"; "Lyra - Mapping the universe of threats";
                    "Website: https://blog.intellibron.io/";
                    "Copyright 2025 ITSEC R&D"; "**/" ]) as H1 by in_list_tac.
  split_and!; [done..|].
  exact (proj1 (header_lines_become_domains "Adult" [] Missing ["a.com"] ∅ None
                  "/**" eq_refl H1)).
Defined.

Lemma process_accepted_form_witness :
  "example.com" ∈ (process_domains ["Example.COM"] None None).1
  ∧ bare_host "example.com".
Proof.
  assert ("example.com" ∈ (process_domains ["Example.COM"] None None).1) as H1.
  { change ("example.com" ∈ (∅ ∪ {[ "example.com" ]} : gset string)).
    apply elem_of_union_r, elem_of_singleton. reflexivity. }
  split; [exact H1|].
  exact (proj1 (process_accepted_form _ _ _ _ H1)).
Defined.

End Instances.
